(** * Galois-field arithmetic of [task1.py] (laboratory work 1)

    A shallow embedding of the three classes [BitNumber], [GFNumber] and
    [GF8Number] together with the two assertion helpers, followed by the
    properties of the bit vector, of the polynomial arithmetic over GF(2)
    and of the reduction modulo [0b100011011].

    Python integers are unbounded, hence [Z]; a Python exception is a value
    of [exn]; a method that may raise returns [result]; a method that mutates
    [self] returns the new [self]. *)

From Stdlib Require Import ZArith List Sorted String Ascii Bool Lia.
From Stdlib Require Import BinaryString HexString DecimalString.
Import ListNotations.

Local Open Scope string_scope.
Local Open Scope Z_scope.

(** ** Exceptions and the error monad *)

(** [ValueError] carries the text that [assert_value] was given for the
    condition (or the interpreter's own text), [TypeError] the name of the
    variable that [assert_type] checked. *)
Inductive exn : Type :=
| ValueError (msg : string)
| TypeError (variable_name : string).

Inductive result (A : Type) : Type :=
| Ok (a : A)
| Raise (e : exn).

Arguments Ok {A} a.
Arguments Raise {A} e.

Definition bind {A B : Type} (m : result A) (k : A -> result B) : result B :=
  match m with
  | Ok a => k a
  | Raise e => Raise e
  end.

Notation "x <- m ;; k" := (bind m (fun x => k))
  (at level 61, m at next level, right associativity).
Notation "m ;;; k" := (bind m (fun _ => k))
  (at level 61, right associativity).

(** A generator, as the sequence of the computations that produce its
    items: an item is computed (and may raise) only when the loop asks for
    it. *)
Definition generator (X : Type) : Type := list (result X).

(** A [for] loop: the state is threaded from left to right; the first
    exception, of an item or of the body, ends the loop. *)
Fixpoint for_each {S X : Type} (body : S -> X -> result S)
  (xs : generator X) (s : S) : result S :=
  match xs with
  | [] => Ok s
  | x :: xs' => v <- x ;; s' <- body s v ;; for_each body xs' s'
  end.

(** ** Python built-ins used by the module *)

(** [range(n)]. *)
Definition range (n : Z) : list Z :=
  map Z.of_nat (seq 0 (Z.to_nat n)).

(** [range(start, stop, -1)]: [start, start - 1, ..., stop + 1]. *)
Definition range_down (start stop : Z) : list Z :=
  map (fun k => start - Z.of_nat k) (seq 0 (Z.to_nat (start - stop))).

(** Iterating over a list: no item raises. *)
Definition items {X : Type} (xs : list X) : generator X := map Ok xs.

Fixpoint enumerate_from {X : Type} (k : Z) (xs : generator X)
  : generator (Z * X) :=
  match xs with
  | [] => []
  | x :: xs' => (v <- x ;; Ok (k, v)) :: enumerate_from (k + 1) xs'
  end.

(** [enumerate(xs)]. *)
Definition enumerate {X : Type} (xs : generator X) : generator (Z * X) :=
  enumerate_from 0 xs.

(** [bin(n)] and [hex(n)]: ["0b101"], ["-0b101"], ["0xaf"]. *)
Definition py_bin (n : Z) : string := BinaryString.of_Z n.
Definition py_hex (n : Z) : string := HexString.of_Z n.

(** [str(n)] of an integer, as an f-string field renders it. *)
Definition py_str (n : Z) : string := NilZero.string_of_int (Z.to_int n).

(** The slice [s[k:]]. *)
Definition slice_from (k : nat) (s : string) : string :=
  substring k (String.length s - k) s.

(** [len(s)] of a string. *)
Definition py_len (s : string) : Z := Z.of_nat (String.length s).

Fixpoint repeat_char (c : ascii) (n : nat) : string :=
  match n with
  | O => EmptyString
  | S n' => String c (repeat_char c n')
  end.

(** [s.rjust(width, fillchar)]. *)
Definition rjust (s : string) (width : Z) (fillchar : ascii) : string :=
  (repeat_char fillchar (Z.to_nat width - String.length s) ++ s)%string.

(** Truth value of an integer in [if bit:]. *)
Definition truthy (n : Z) : bool := negb (n =? 0).

(** [n >> num] and [n << num] on integers raise on a negative count. *)
Definition int_rshift (n num : Z) : result Z :=
  if num <? 0 then Raise (ValueError "negative shift count")
  else Ok (Z.shiftr n num).

Definition int_lshift (n num : Z) : result Z :=
  if num <? 0 then Raise (ValueError "negative shift count")
  else Ok (Z.shiftl n num).

(** ** Objects *)

(** [BitNumber]: the private attributes [__number] and [__len]. *)
Record BitNumber : Type := mkBitNumber {
  __number : Z;
  __len : Z
}.

(** The class of a field number: [GF8Number] inherits from [GFNumber] and
    adds no attribute, so the class is the only difference between their
    instances. *)
Inductive gf_class : Type := cls_GFNumber | cls_GF8Number.

(** [GFNumber] and its subclass: [__class__] and the attributes [_number]
    and [_len]. *)
Record GFNumber : Type := mkGFNumber {
  __class__ : gf_class;
  _number : BitNumber;
  _len : Z
}.

(** What a constructor or an operator can be handed. *)
Inductive value : Type :=
| VInt (n : Z)
| VBit (b : BitNumber)
| VGF (g : GFNumber)
| VOther.

(** ** The assertion helpers *)

Definition assert_value (condition : bool) (condition_as_string : string)
  : result unit :=
  if condition then Ok tt
  else Raise (ValueError ("Assertion failed: " ++ condition_as_string)).

Inductive type_name : Type := ty_int | ty_BitNumber | ty_GFNumber.

Definition isinstance1 (v : value) (t : type_name) : bool :=
  match v, t with
  | VInt _, ty_int => true
  | VBit _, ty_BitNumber => true
  | VGF _, ty_GFNumber => true
  | _, _ => false
  end.

Definition isinstance (v : value) (types_ : list type_name) : bool :=
  existsb (isinstance1 v) types_.

Definition assert_type (variable : value) (types_ : list type_name)
  (variable_name : string) : result unit :=
  if isinstance variable types_ then Ok tt
  else Raise (TypeError variable_name).

(** ** class BitNumber *)

Module BitNumber.

Definition __init__ (number : value) : result BitNumber :=
  match number with
  | VBit other => Ok (mkBitNumber (__number other) (__len other))
  | _ =>
      assert_type number [ty_int] "number" ;;;
      match number with
      | VInt n =>
          assert_value (0 <=? n) "number >= 0" ;;;
          Ok (mkBitNumber n (py_len (slice_from 2 (py_bin n))))
      | _ => Raise (TypeError "number") (* [assert_type] has raised *)
      end
  end.

Definition __xor__ (self : BitNumber) (other : value) : result BitNumber :=
  other' <- __init__ other ;;
  __init__ (VInt (Z.lxor (__number self) (__number other'))).

(** The shift count and the index below are [int]s: [assert_type] passes. *)
Definition __rshift__ (self : BitNumber) (num : Z) : result BitNumber :=
  n <- int_rshift (__number self) num ;; __init__ (VInt n).

Definition __lshift__ (self : BitNumber) (num : Z) : result BitNumber :=
  n <- int_lshift (__number self) num ;; __init__ (VInt n).

Definition __len__ (self : BitNumber) : Z := __len self.

Definition __getitem__ (self : BitNumber) (index : Z) : result Z :=
  assert_value ((0 <=? index) && (index <? __len__ self))
    "0 <= index < len(self)" ;;;
  Ok (Z.shiftr (__number self) index mod 2).

Definition __iter__ (self : BitNumber) : generator Z :=
  map (__getitem__ self) (range (__len__ self)).

Definition __int__ (self : BitNumber) : Z := __number self.

Definition bin (self : BitNumber) : string := py_bin (__number self).

Definition __hex__ (self : BitNumber) : string :=
  slice_from 2 (py_hex (__number self)).

Definition __str__ (self : BitNumber) : string :=
  slice_from 2 (py_bin (__number self)).

End BitNumber.

(** ** class GFNumber *)

Module GFNumber.

(** [cls] is the class being instantiated: [GF8Number.__init__] reaches
    this constructor through [super()]. *)
Definition __init__ (cls : gf_class) (number : value) : result GFNumber :=
  match number with
  | VGF other =>
      b <- BitNumber.__init__ (VBit (_number other)) ;;
      Ok (mkGFNumber cls b (BitNumber.__len__ b))
  | _ =>
      assert_type number [ty_int; ty_BitNumber] "number" ;;;
      number <- match number with
                | VInt n =>
                    assert_value (0 <=? n) "number >= 0" ;;;
                    b <- BitNumber.__init__ number ;; Ok (VBit b)
                | _ => Ok number
                end ;;
      match number with
      | VBit b0 =>
          b <- BitNumber.__init__ (VBit b0) ;;
          Ok (mkGFNumber cls b (BitNumber.__len__ b))
      | _ => Raise (TypeError "number") (* [assert_type] has raised *)
      end
  end.

Definition __add__ (self : GFNumber) (other : value) : result GFNumber :=
  other' <- __init__ cls_GFNumber other ;;
  b <- BitNumber.__xor__ (_number self) (VBit (_number other')) ;;
  __init__ cls_GFNumber (VBit b).

(** The body of the loop of [__mul__]. *)
Definition mul_body (self : GFNumber) (result_number : BitNumber)
  (item : Z * Z) : result BitNumber :=
  let '(index, bit) := item in
  if truthy bit then
    shifted <- BitNumber.__lshift__ (_number self) index ;;
    BitNumber.__xor__ result_number (VBit shifted)
  else Ok result_number.

Definition __mul__ (self : GFNumber) (other : value) : result GFNumber :=
  other' <- __init__ cls_GFNumber other ;;
  result_number <- BitNumber.__init__ (VInt 0) ;;
  result_number <- for_each (mul_body self)
                     (enumerate (BitNumber.__iter__ (_number other')))
                     result_number ;;
  __init__ cls_GFNumber (VBit result_number).

(** [__rmul__ = __mul__]: the class attribute is bound to this very
    function, so a subclass that overrides [__mul__] still inherits this
    one as its reflected multiplication. [other] is the left operand of
    [other * self]. *)
Definition __rmul__ (self : GFNumber) (other : value) : result GFNumber :=
  __mul__ self other.

Definition __len__ (self : GFNumber) : Z := _len self.

Definition __getitem__ (self : GFNumber) (index : Z) : result Z :=
  BitNumber.__getitem__ (_number self) index.

Definition __int__ (self : GFNumber) : Z := BitNumber.__int__ (_number self).

Definition bin (self : GFNumber) : string := BitNumber.bin (_number self).

Definition __hex__ (self : GFNumber) (prefix : string) : string :=
  (prefix ++ BitNumber.__hex__ (_number self))%string.

(** The body of the loop of [__str__]; the state is [(str_, print_num)]. *)
Definition str_body (st : string * Z) (item : Z * Z) : result (string * Z) :=
  let '(str_, print_num) := st in
  let '(i, bit) := item in
  let power := i in
  if truthy bit then
    let str_ := if truthy print_num then (" + " ++ str_)%string else str_ in
    let print_num := print_num + 1 in
    let str_ :=
      if truthy power
      then (("x" ++ (if (power =? 1)%Z then "" else py_str power)) ++ str_)%string
      else ("1" ++ str_)%string in
    Ok (str_, print_num)
  else Ok (str_, print_num).

Definition __str__ (self : GFNumber) : result string :=
  st <- for_each str_body (enumerate (BitNumber.__iter__ (_number self)))
          (""%string, 0) ;;
  Ok (fst st).

End GFNumber.

(** ** class GF8Number(GFNumber) *)

Module GF8Number.

Definition MAX_BITS : Z := 8.

(** [BitNumber(0b100011011)], built once when the class is created. *)
Definition SHRINK_MODULO : BitNumber := mkBitNumber 283 9.

(** One turn of the loop of [__shrink]: [self._number] is replaced, the
    cached [self._len] is left as it is. *)
Definition shrink_body (self : GFNumber) (i : Z) : result GFNumber :=
  bit <- GFNumber.__getitem__ self i ;;
  if truthy bit then
    shifted <- BitNumber.__lshift__ SHRINK_MODULO (i - MAX_BITS) ;;
    b <- BitNumber.__xor__ (_number self) (VBit shifted) ;;
    Ok (mkGFNumber (__class__ self) b (_len self))
  else Ok self.

(** [__shrink] returns its boolean and [self] as it has left it. *)
Definition __shrink (self : GFNumber) : result (bool * GFNumber) :=
  if GFNumber.__len__ self <=? MAX_BITS then Ok (false, self)
  else
    self <- for_each shrink_body
              (items (range_down (GFNumber.__len__ self - 1) (MAX_BITS - 1)))
              self ;;
    Ok (true, mkGFNumber (__class__ self) (_number self)
                (BitNumber.__len__ (_number self))).

Definition __init__ (number : value) (assert_shrunk : bool)
  : result GFNumber :=
  self <- GFNumber.__init__ cls_GF8Number number ;;
  r <- __shrink self ;;
  let '(shrunk, self) := r in
  (if assert_shrunk then assert_value (negb shrunk) "shrunk == False"
   else Ok tt) ;;;
  Ok self.

Definition __mul__ (self : GFNumber) (other : value) : result GFNumber :=
  other' <- __init__ other true ;;
  product <- GFNumber.__mul__ self (VGF other') ;;
  result <- __init__ (VGF product) false ;;
  r <- __shrink result ;;
  Ok (snd r).

Definition __hex__ (self : GFNumber) (prefix : string) : string :=
  let hex_str := BitNumber.__hex__ (_number self) in
  let len_ := MAX_BITS / 4 in
  (prefix ++ rjust hex_str len_ "0")%string.

End GF8Number.

(** ** Laboratory work 3: [Book] and [PaperBook]

    The file has its own copies of [assert_value] and [assert_type], the
    same as above; [PaperBook] calls [assert_type] without a variable name,
    so the default ['{unknown}'] is the one reported. *)

Record Book : Type := mkBook {
  Book__name : string;
  Book__author : string
}.

Record PaperBook : Type := mkPaperBook {
  PaperBook_base : Book;
  pages : Z
}.

Module Book.

Definition __init__ (name author : string) : Book := mkBook name author.

(** The read-only properties [name] and [author]. *)
Definition name (self : Book) : string := Book__name self.
Definition author (self : Book) : string := Book__author self.

End Book.

Module PaperBook.

Definition __init__ (name author : string) (pages : value)
  : result PaperBook :=
  let base := Book.__init__ name author in
  assert_type pages [ty_int] "{unknown}" ;;;
  match pages with
  | VInt n =>
      assert_value (0 <? n) "pages > 0" ;;;
      Ok (mkPaperBook base n)
  | _ => Raise (TypeError "{unknown}") (* [assert_type] has raised *)
  end.

End PaperBook.

(** * Vocabulary of the properties *)

(** [len(bin(n)[2:])]. *)
Definition bit_count (n : Z) : Z := py_len (slice_from 2 (py_bin n)).

(** The error kinds of the specification.

    All three are [ValueError]s raised by [assert_value]; the text of the
    failed condition tells them apart. *)

Definition InvalidArgument : exn :=
  ValueError "Assertion failed: number >= 0".
Definition IndexOutOfRange : exn :=
  ValueError "Assertion failed: 0 <= index < len(self)".
Definition InvariantViolation : exn :=
  ValueError "Assertion failed: shrunk == False".

(** [GF8Number(a) * b] and [GFNumber(a) * b] on plain integers. *)
Definition GF8_product (a b : Z) : result GFNumber :=
  self <- GF8Number.__init__ (VInt a) false ;; GF8Number.__mul__ self (VInt b).

Definition GF_product (a b : Z) : result GFNumber :=
  self <- GFNumber.__init__ cls_GFNumber (VInt a) ;; GFNumber.__mul__ self (VInt b).

(** What every constructor establishes: the value is non-negative and the
    cached lengths are those of the value. *)
Definition wf_bit (b : BitNumber) : Prop :=
  0 <= __number b /\ __len b = bit_count (__number b).

Definition wf_gf (g : GFNumber) : Prop :=
  wf_bit (_number g) /\ _len g = __len (_number g).

(** [GFNumber(a) + GFNumber(b)]. *)
Definition GF_sum (a b : Z) : result GFNumber :=
  self <- GFNumber.__init__ cls_GFNumber (VInt a) ;;
  other <- GFNumber.__init__ cls_GFNumber (VInt b) ;;
  GFNumber.__add__ self (VGF other).

(** The product of polynomials over GF(2), by recursion on the bits of the
    second factor. *)
Fixpoint clmul_pos (a : Z) (b : positive) : Z :=
  match b with
  | xH => a
  | xO b' => 2 * clmul_pos a b'
  | xI b' => Z.lxor a (2 * clmul_pos a b')
  end.

Definition clmul (a b : Z) : Z :=
  match b with
  | Z.pos p => clmul_pos a p
  | _ => 0
  end.

(** The bits of a positive number, lowest first. *)
Fixpoint bits_of_pos (p : positive) : list bool :=
  match p with
  | xH => [true]
  | xO p' => false :: bits_of_pos p'
  | xI p' => true :: bits_of_pos p'
  end.

(** What the loop of [GFNumber.__mul__] accumulates over the bits it is
    handed, the first of them at position [k]. *)
Fixpoint xor_shifts (a k : Z) (bits : list bool) (acc : Z) : Z :=
  match bits with
  | [] => acc
  | bit :: rest =>
      xor_shifts a (k + 1) rest (if bit then Z.lxor acc (Z.shiftl a k) else acc)
  end.

(** The arguments that already are objects are well-formed ones. *)
Definition wf_value (v : value) : Prop :=
  match v with
  | VBit b => wf_bit b
  | VGF g => wf_bit (_number g)
  | VInt _ | VOther => True
  end.

(** The term of degree [i]: ["1"], ["x"], ["x2"], ["x3"], ... *)
Definition term (i : Z) : string :=
  if i =? 0 then "1" else if i =? 1 then "x" else ("x" ++ py_str i)%string.

(** The positions of the set bits of [n], from the highest bit down to
    bit 0. *)
Definition set_bits_descending (n : Z) : list Z :=
  filter (Z.testbit n) (range_down (Z.log2 n) (-1)).

(** The terms of the set bits, highest first, joined by [" + "]. *)
Definition polynomial_text (n : Z) : string :=
  String.concat " + " (map term (set_bits_descending n)).

(** The positions that the loop of [GFNumber.__str__] has put in front of
    its text, the latest first, over bits of which the first is at
    position [k]. *)
Fixpoint set_positions (k : Z) (bits : list bool) (seen : list Z) : list Z :=
  match bits with
  | [] => seen
  | bit :: rest => set_positions (k + 1) rest (if bit then k :: seen else seen)
  end.

(** The number that a sequence of bits, lowest first, denotes. *)
Fixpoint from_bits (bits : list Z) : Z :=
  match bits with
  | [] => 0
  | bit :: rest => bit + 2 * from_bits rest
  end.

(** The text of a sequence of bits, in the order given. *)
Fixpoint bits_text (bits : list Z) : string :=
  match bits with
  | [] => EmptyString
  | bit :: rest =>
      String (if (bit =? 0)%Z then "0"%char else "1"%char) (bits_text rest)
  end.

(** [(BitNumber(a) ^ b) ^ b]. *)
Definition xor_twice (a b : Z) : result BitNumber :=
  x <- BitNumber.__init__ (VInt a) ;;
  y <- BitNumber.__xor__ x (VInt b) ;;
  BitNumber.__xor__ y (VInt b).

(** [b * GF8Number(a)]: [int.__mul__] declines, and the reflected method
    that a [GF8Number] has is the inherited [GFNumber.__rmul__]. *)
Definition GF8_reflected_product (b a : Z) : result GFNumber :=
  self <- GF8Number.__init__ (VInt a) false ;;
  GFNumber.__rmul__ self (VInt b).


(** The object that [GFNumber(n)] is for a non-negative [n]. *)
Definition gf_of (n : Z) : GFNumber :=
  mkGFNumber cls_GFNumber (mkBitNumber n (bit_count n)) (bit_count n).

(** The object that [GF8Number(n)] is for an [n] of at most 8 bits. *)
Definition gf8_of (n : Z) : GFNumber :=
  mkGFNumber cls_GF8Number (mkBitNumber n (bit_count n)) (bit_count n).

(** [r] is a remainder of the polynomial [n] modulo [0b100011011]: it has
    no bit above bit 7 and differs from [n] by a multiple of the
    modulus. *)
Definition residue (n r : Z) : Prop :=
  0 <= r < 256 /\ exists q : Z, 0 <= q /\ n = Z.lxor r (clmul 283 q).

(** The two hexadecimal digits that [GF8Number.__hex__] puts after the
    prefix for the value [n]. *)
Definition hex_digits (n : Z) : string :=
  rjust (slice_from 2 (py_hex n)) (GF8Number.MAX_BITS / 4) "0".

(** [hex_digits n] has two characters and reads back as [n]. *)
Definition two_digits_of (n : Z) : bool :=
  Nat.eqb (String.length (hex_digits n)) 2
  && (HexString.to_Z ("0x" ++ hex_digits n) =? n).

(** The quotient that the scan subtracts from a number of [L] bits when no
    turn misses: one modulus for every position from [L - 1] down to 8. *)
Definition full_quotient (L : Z) : Z := 2 ^ (L - 8) - 1.

(** What such a scan leaves of [n]. *)
Definition scan_value (n : Z) : Z :=
  Z.lxor n (clmul 283 (full_quotient (bit_count n))).

(** * Properties *)

(** ** The length that [BitNumber.__init__] caches *)

Lemma substring_whole (s : string) : substring 0 (String.length s) s = s.
Proof. induction s as [|c s IH]; simpl; [reflexivity | now rewrite IH]. Qed.

Lemma raw_of_pos_length (p : positive) (rest : string) :
  String.length (BinaryString.Raw.of_pos p rest)
  = (Pos.size_nat p + String.length rest)%nat.
Proof.
  revert rest; induction p as [p IH|p IH|]; intros rest; simpl;
    try rewrite IH; simpl; lia.
Qed.

Lemma size_nat_size (p : positive) : Z.of_nat (Pos.size_nat p) = Z.pos (Pos.size p).
Proof. induction p; simpl Pos.size_nat; simpl Pos.size; lia. Qed.

Lemma bit_count_0 : bit_count 0 = 1.
Proof. reflexivity. Qed.

Lemma bit_count_pos (p : positive) : bit_count (Z.pos p) = Z.pos (Pos.size p).
Proof.
  unfold bit_count, py_len, py_bin, slice_from, BinaryString.of_Z, BinaryString.of_pos.
  change (Z.of_nat (String.length
            (substring 0 (String.length (BinaryString.Raw.of_pos p "") - 0)
               (BinaryString.Raw.of_pos p ""))) = Z.pos (Pos.size p)).
  rewrite Nat.sub_0_r, substring_whole, raw_of_pos_length; cbn [String.length].
  rewrite Nat.add_0_r; apply size_nat_size.
Qed.

Lemma bit_count_log2 (n : Z) : 0 < n -> bit_count n = Z.log2 n + 1.
Proof.
  destruct n as [|p|p]; try lia; intros _.
  rewrite bit_count_pos; destruct p; cbn [Z.log2 Pos.size]; lia.
Qed.

Lemma bit_count_positive (n : Z) : 0 <= n -> 1 <= bit_count n.
Proof.
  intros Hn; destruct (Z.eq_dec n 0) as [->|Hz]; [rewrite bit_count_0; lia|].
  rewrite bit_count_log2 by lia. pose proof (Z.log2_nonneg n); lia.
Qed.

(** A non-negative [n] is below [2 ^ bit_count n] ... *)
Lemma bit_count_upper (n : Z) : 0 <= n -> n < 2 ^ bit_count n.
Proof.
  intros Hn; destruct (Z.eq_dec n 0) as [->|Hz]; [reflexivity|].
  rewrite bit_count_log2 by lia.
  replace (Z.log2 n + 1) with (Z.succ (Z.log2 n)) by lia.
  apply Z.log2_spec; lia.
Qed.

(** ... and a positive one has its bit [bit_count n - 1] set. *)
Lemma bit_count_lower (n : Z) : 0 < n -> 2 ^ (bit_count n - 1) <= n.
Proof.
  intros Hn; rewrite bit_count_log2 by lia.
  replace (Z.log2 n + 1 - 1) with (Z.log2 n) by lia.
  apply Z.log2_spec; lia.
Qed.

Lemma bit_count_le (n k : Z) : 0 <= n -> 1 <= k -> (bit_count n <= k <-> n < 2 ^ k).
Proof.
  intros Hn Hk; split; intros H.
  - eapply Z.lt_le_trans; [apply bit_count_upper; lia|].
    apply Z.pow_le_mono_r; lia.
  - destruct (Z.eq_dec n 0) as [->|Hz]; [rewrite bit_count_0; lia|].
    rewrite bit_count_log2 by lia.
    assert (Z.log2 n < k) by (apply Z.log2_lt_pow2; lia). lia.
Qed.

(** ** Construction *)

Lemma BitNumber_init_int (n : Z) :
  0 <= n -> BitNumber.__init__ (VInt n) = Ok (mkBitNumber n (bit_count n)).
Proof.
  intros Hn; unfold BitNumber.__init__, assert_type, assert_value; cbn.
  destruct (0 <=? n) eqn:E; [reflexivity | apply Z.leb_gt in E; lia].
Qed.

Lemma BitNumber_init_negative (n : Z) :
  n < 0 ->
  BitNumber.__init__ (VInt n) = Raise (ValueError "Assertion failed: number >= 0").
Proof.
  intros Hn; unfold BitNumber.__init__, assert_type, assert_value; cbn.
  destruct (0 <=? n) eqn:E; [apply Z.leb_le in E; lia | reflexivity].
Qed.

Lemma BitNumber_init_copy (b : BitNumber) : BitNumber.__init__ (VBit b) = Ok b.
Proof. destruct b; reflexivity. Qed.

Lemma GFNumber_init_int (cls : gf_class) (n : Z) :
  0 <= n ->
  GFNumber.__init__ cls (VInt n)
  = Ok (mkGFNumber cls (mkBitNumber n (bit_count n)) (bit_count n)).
Proof.
  intros Hn; unfold GFNumber.__init__, assert_type, assert_value.
  cbn [isinstance existsb isinstance1 orb bind].
  rewrite BitNumber_init_int by assumption.
  destruct (0 <=? n) eqn:E; [reflexivity | apply Z.leb_gt in E; lia].
Qed.

Lemma GFNumber_init_negative (cls : gf_class) (n : Z) :
  n < 0 ->
  GFNumber.__init__ cls (VInt n)
  = Raise (ValueError "Assertion failed: number >= 0").
Proof.
  intros Hn; unfold GFNumber.__init__, assert_type, assert_value; cbn.
  destruct (0 <=? n) eqn:E; [apply Z.leb_le in E; lia | reflexivity].
Qed.

Lemma GFNumber_init_bit (cls : gf_class) (b : BitNumber) :
  GFNumber.__init__ cls (VBit b) = Ok (mkGFNumber cls b (__len b)).
Proof. destruct b; reflexivity. Qed.

Lemma GFNumber_init_copy (cls : gf_class) (g : GFNumber) :
  GFNumber.__init__ cls (VGF g)
  = Ok (mkGFNumber cls (_number g) (__len (_number g))).
Proof. destruct g as [c [n l] l']; reflexivity. Qed.

(** ** Bit access *)

Lemma getitem_eq (self : BitNumber) (index : Z) :
  BitNumber.__getitem__ self index
  = if (0 <=? index) && (index <? BitNumber.__len__ self)
    then Ok (Z.shiftr (__number self) index mod 2)
    else Raise IndexOutOfRange.
Proof.
  unfold BitNumber.__getitem__, assert_value.
  destruct ((0 <=? index) && (index <? BitNumber.__len__ self)); reflexivity.
Qed.

Lemma in_bounds_iff (index len : Z) :
  (0 <=? index) && (index <? len) = true <-> 0 <= index < len.
Proof. rewrite andb_true_iff, Z.leb_le, Z.ltb_lt; tauto. Qed.

Lemma land_1_mod_2 (x : Z) : Z.land x 1 = x mod 2.
Proof. change 1 with (Z.ones 1) at 1. now rewrite Z.land_ones by lia. Qed.

(** C8: [BitNumber.__getitem__] raises the out-of-range [ValueError] exactly
    when the index is outside [0, len(self)), and otherwise returns
    [(value >> index) & 1]. *)
Theorem getitem_raises_exactly_out_of_bounds (self : BitNumber) (index : Z) :
  (BitNumber.__getitem__ self index = Raise IndexOutOfRange
   <-> ~ (0 <= index < BitNumber.__len__ self))
  /\ (0 <= index < BitNumber.__len__ self ->
      BitNumber.__getitem__ self index
      = Ok (Z.land (Z.shiftr (BitNumber.__int__ self) index) 1))
  /\ ((exists e, BitNumber.__getitem__ self index = Raise e)
      <-> ~ (0 <= index < BitNumber.__len__ self)).
Proof.
  rewrite getitem_eq, land_1_mod_2. unfold BitNumber.__int__.
  destruct ((0 <=? index) && (index <? BitNumber.__len__ self)) eqn:E.
  - apply in_bounds_iff in E. repeat split; try tauto; try discriminate.
    intros [e He]; discriminate.
  - assert (~ (0 <= index < BitNumber.__len__ self)) as Hout.
    { intros H; apply in_bounds_iff in H; congruence. }
    repeat split; try tauto. intros _; now exists IndexOutOfRange.
Qed.

Lemma getitem_bounds_witness :
  BitNumber.__getitem__ (mkBitNumber 175 8) 3 = Ok 1
  /\ BitNumber.__getitem__ (mkBitNumber 175 8) 8 = Raise IndexOutOfRange.
Proof.
  split.
  - apply (proj1 (proj2 (getitem_raises_exactly_out_of_bounds (mkBitNumber 175 8) 3))).
    unfold BitNumber.__len__; simpl; lia.
  - apply (proj1 (getitem_raises_exactly_out_of_bounds (mkBitNumber 175 8) 8)).
    unfold BitNumber.__len__; simpl; lia.
Defined.

(** ** The zero bit vector *)

(** C3, as the specification words it, fails: [BitNumber(0)] is not empty. *)
Lemma zero_BitNumber_is_not_empty :
  ~ (exists zero : BitNumber,
        BitNumber.__init__ (VInt 0) = Ok zero
        /\ BitNumber.__len__ zero = 0
        /\ BitNumber.__iter__ zero = []
        /\ forall index : Z,
             BitNumber.__getitem__ zero index = Raise IndexOutOfRange).
Proof.
  intros (zero & Hinit & Hlen & _). vm_compute in Hinit.
  injection Hinit as <-. discriminate Hlen.
Qed.

(** C3, amended: [bin(0)[2:]] is the one-character text ["0"], so
    [BitNumber(0)] has length 1, iterating over it yields the single bit 0,
    index 0 reads 0, and every other index raises the out-of-range
    [ValueError]. *)
Theorem zero_BitNumber_has_one_bit :
  let zero := mkBitNumber 0 1 in
  BitNumber.__init__ (VInt 0) = Ok zero
  /\ BitNumber.__len__ zero = 1
  /\ BitNumber.__iter__ zero = [Ok 0]
  /\ BitNumber.__getitem__ zero 0 = Ok 0
  /\ forall index : Z,
       index <> 0 -> BitNumber.__getitem__ zero index = Raise IndexOutOfRange.
Proof.
  cbv zeta. repeat split; try reflexivity.
  intros index Hne. rewrite getitem_eq.
  destruct ((0 <=? index) && (index <? BitNumber.__len__ (mkBitNumber 0 1))) eqn:E;
    [|reflexivity].
  apply in_bounds_iff in E. unfold BitNumber.__len__ in E; simpl in E. lia.
Qed.

(** ** The worked product [GF8Number(175) * 3] *)

(** C4, as the specification words it, fails: no result has both the
    polynomial text and the hexadecimal text ["ae"]. *)
Lemma product_175_3_hex_is_not_ae :
  ~ (exists p : GFNumber,
        GF8_product 175 3 = Ok p
        /\ GFNumber.__str__ p = Ok "x7 + x6 + x5 + x3 + x"%string
        /\ GF8Number.__hex__ p "" = "ae"%string).
Proof.
  intros (p & Hp & _ & Hhex). vm_compute in Hp. injection Hp as <-.
  vm_compute in Hhex. discriminate Hhex.
Qed.

(** C4, amended: [GF8Number(175) * 3] is the field element 234, whose
    polynomial text is ["x7 + x6 + x5 + x3 + x"] and whose two-digit
    hexadecimal text is ["ea"] (["0xea"] with the default prefix). *)
Theorem product_175_3 :
  let p := mkGFNumber cls_GF8Number (mkBitNumber 234 8) 8 in
  GF8_product 175 3 = Ok p
  /\ GFNumber.__str__ p = Ok "x7 + x6 + x5 + x3 + x"%string
  /\ GF8Number.__hex__ p "" = "ea"%string
  /\ GF8Number.__hex__ p "0x" = "0xea"%string
  /\ GFNumber.__int__ p = Z.lxor 497 283.
Proof. cbv zeta. repeat split; vm_compute; reflexivity. Qed.

(** ** The reduction scan reads above the shrunken length *)

(** C1: the closure under multiplication fails on the code. For the 8-bit
    operands 32 and 128 the multiplication returns no field element at
    all. *)
Theorem GF8_product_32_128_returns_nothing :
  0 <= 32 < 256 /\ 0 <= 128 < 256
  /\ forall r : GFNumber, GF8_product 32 128 <> Ok r.
Proof.
  split; [lia|]. split; [lia|]. intros r H. vm_compute in H. discriminate H.
Qed.

(** C2: [GF8Number(32) * 128] raises the out-of-range [ValueError] inside
    [__shrink]. The unreduced product is [x^12], cached length 13; the turn
    [i = 12] of the scan leaves the bit vector 432 of length 9, and the turn
    [i = 11] then reads bit 11 of it. *)
Theorem GF8_product_raises_in_reduction_scan :
  exists a b : Z,
    0 <= a < 256 /\ 0 <= b < 256
    /\ GF8_product a b = Raise IndexOutOfRange
    /\ exists self other product scanned after_12,
         GF8Number.__init__ (VInt a) false = Ok self
         /\ GF8Number.__init__ (VInt b) true = Ok other
         /\ GFNumber.__mul__ self (VGF other) = Ok product
         /\ GFNumber.__int__ product = 4096
         /\ GFNumber.__init__ cls_GF8Number (VGF product) = Ok scanned
         /\ GFNumber.__len__ scanned = 13
         /\ GF8Number.shrink_body scanned 12 = Ok after_12
         /\ _number after_12 = mkBitNumber 432 9
         /\ GFNumber.__len__ after_12 = 13
         /\ BitNumber.__len__ (_number after_12) <= 11
         /\ GF8Number.shrink_body after_12 11 = Raise IndexOutOfRange
         /\ GF8Number.__shrink scanned = Raise IndexOutOfRange.
Proof.
  exists 32, 128. split; [lia|]. split; [lia|]. split; [reflexivity|].
  exists (mkGFNumber cls_GF8Number (mkBitNumber 32 6) 6),
         (mkGFNumber cls_GF8Number (mkBitNumber 128 8) 8),
         (mkGFNumber cls_GFNumber (mkBitNumber 4096 13) 13),
         (mkGFNumber cls_GF8Number (mkBitNumber 4096 13) 13),
         (mkGFNumber cls_GF8Number (mkBitNumber 432 9) 13).
  repeat split; try reflexivity. vm_compute; discriminate.
Qed.

(** ** Strict construction *)

Lemma shrink_short (self : GFNumber) :
  GFNumber.__len__ self <= GF8Number.MAX_BITS ->
  GF8Number.__shrink self = Ok (false, self).
Proof.
  intros H; unfold GF8Number.__shrink.
  destruct (GFNumber.__len__ self <=? GF8Number.MAX_BITS) eqn:E;
    [reflexivity | apply Z.leb_gt in E; lia].
Qed.

(** Above [MAX_BITS] the scan either raises or reports a reduction. *)
Lemma shrink_long (self : GFNumber) :
  GF8Number.MAX_BITS < GFNumber.__len__ self ->
  (exists e, GF8Number.__shrink self = Raise e)
  \/ (exists self', GF8Number.__shrink self = Ok (true, self')).
Proof.
  intros H; unfold GF8Number.__shrink.
  destruct (GFNumber.__len__ self <=? GF8Number.MAX_BITS) eqn:E;
    [apply Z.leb_le in E; lia|].
  destruct (for_each _ _ self) as [s|e]; cbn [bind]; eauto.
Qed.

Lemma strict_init_after_reduction (number : value) (self self' : GFNumber) :
  GFNumber.__init__ cls_GF8Number number = Ok self ->
  GF8Number.__shrink self = Ok (true, self') ->
  GF8Number.__init__ number true = Raise InvariantViolation.
Proof.
  intros Hinit Hshrink; unfold GF8Number.__init__.
  rewrite Hinit; cbn [bind]; rewrite Hshrink; reflexivity.
Qed.

Lemma GF8Number_init_small (n : Z) (assert_shrunk : bool) :
  0 <= n -> bit_count n <= 8 ->
  GF8Number.__init__ (VInt n) assert_shrunk
  = Ok (mkGFNumber cls_GF8Number (mkBitNumber n (bit_count n)) (bit_count n)).
Proof.
  intros Hn Hlen; unfold GF8Number.__init__.
  rewrite GFNumber_init_int by assumption; cbn [bind].
  rewrite shrink_short by exact Hlen.
  destruct assert_shrunk; reflexivity.
Qed.

(** What strict construction does keep: [GF8Number(300)] raises the
    [shrunk == False] assertion; whenever [__shrink] comes back with a
    reduction, strict construction raises that assertion; an integer that
    fits in 8 bits is accepted unchanged; and strict construction of a
    non-negative integer fails, with one [ValueError] or the other, exactly
    when it needs more than 8 bits. *)
Theorem strict_init_fails_iff_reduction_needed :
  GF8Number.__init__ (VInt 300) true = Raise InvariantViolation
  /\ (forall (number : value) (self self' : GFNumber),
        GFNumber.__init__ cls_GF8Number number = Ok self ->
        GF8Number.__shrink self = Ok (true, self') ->
        GF8Number.__init__ number true = Raise InvariantViolation)
  /\ (forall n : Z,
        0 <= n < 256 ->
        GF8Number.__init__ (VInt n) true
        = Ok (mkGFNumber cls_GF8Number (mkBitNumber n (bit_count n))
                (bit_count n)))
  /\ (forall n : Z,
        0 <= n ->
        ((exists e, GF8Number.__init__ (VInt n) true = Raise e)
         <-> 8 < bit_count n)).
Proof.
  split; [reflexivity|]. split; [exact strict_init_after_reduction|].
  split.
  - intros n Hn. apply GF8Number_init_small; [lia|].
    apply bit_count_le; lia.
  - intros n Hn; split.
    + intros [e He]. destruct (Z_lt_le_dec 8 (bit_count n)) as [|Hle]; [assumption|].
      rewrite GF8Number_init_small in He by assumption. discriminate He.
    + intros Hlong. unfold GF8Number.__init__.
      rewrite GFNumber_init_int by assumption; cbn [bind].
      destruct (shrink_long
                  (mkGFNumber cls_GF8Number (mkBitNumber n (bit_count n))
                     (bit_count n)) Hlong) as [[e He]|[self' Hs]];
        rewrite ?He, ?Hs; cbn; eauto.
Qed.

Lemma strict_init_witness :
  GF8Number.__init__ (VInt 175) true
  = Ok (mkGFNumber cls_GF8Number (mkBitNumber 175 8) 8)
  /\ exists e, GF8Number.__init__ (VInt 4096) true = Raise e.
Proof.
  split.
  - apply (proj1 (proj2 (proj2 strict_init_fails_iff_reduction_needed)) 175); lia.
  - apply (proj2 (proj2 (proj2 strict_init_fails_iff_reduction_needed)) 4096);
      [lia | vm_compute; reflexivity].
Defined.

(** C5: strict construction does not raise the [shrunk == False]
    assertion for every input that needs reduction. 512 has 10 bits, so
    [GF8Number(512, assert_shrunk=True)] runs the scan over [9, 8]: the
    turn [i = 9] leaves the bit vector 54 of length 6, the turn [i = 8]
    reads bit 8 of it and raises the out-of-range [ValueError], and the
    assertion is never reached. 300, of 9 bits, does raise the
    assertion. *)
Theorem strict_init_512_raises_index_error :
  8 < bit_count 512
  /\ GF8Number.__init__ (VInt 512) true = Raise IndexOutOfRange
  /\ GF8Number.__init__ (VInt 512) true <> Raise InvariantViolation
  /\ GF8Number.__init__ (VInt 300) true = Raise InvariantViolation
  /\ exists self after_9 : GFNumber,
       GFNumber.__init__ cls_GF8Number (VInt 512) = Ok self
       /\ GFNumber.__len__ self = 10
       /\ GF8Number.shrink_body self 9 = Ok after_9
       /\ _number after_9 = mkBitNumber 54 6
       /\ GFNumber.__len__ after_9 = 10
       /\ GF8Number.shrink_body after_9 8 = Raise IndexOutOfRange
       /\ GF8Number.__shrink self = Raise IndexOutOfRange.
Proof.
  split; [reflexivity|]. split; [reflexivity|].
  split; [vm_compute; discriminate|]. split; [reflexivity|].
  exists (mkGFNumber cls_GF8Number (mkBitNumber 512 10) 10),
         (mkGFNumber cls_GF8Number (mkBitNumber 54 6) 10).
  repeat split.
Qed.

(** ** Well-formed objects *)

Lemma BitNumber_init_wf (n : Z) (b : BitNumber) :
  BitNumber.__init__ (VInt n) = Ok b -> wf_bit b.
Proof.
  intros H. destruct (Z_lt_le_dec n 0) as [Hneg|Hpos].
  - rewrite BitNumber_init_negative in H by assumption. discriminate H.
  - rewrite BitNumber_init_int in H by assumption. injection H as <-.
    split; [assumption | reflexivity].
Qed.

Lemma BitNumber_xor_nonneg (x y : BitNumber) :
  0 <= __number x -> 0 <= __number y ->
  BitNumber.__xor__ x (VBit y)
  = Ok (mkBitNumber (Z.lxor (__number x) (__number y))
          (bit_count (Z.lxor (__number x) (__number y)))).
Proof.
  intros Hx Hy; unfold BitNumber.__xor__.
  rewrite BitNumber_init_copy; cbn [bind].
  apply BitNumber_init_int. now apply Z.lxor_nonneg.
Qed.

Lemma BitNumber_lshift_nonneg (x : BitNumber) (num : Z) :
  0 <= __number x -> 0 <= num ->
  BitNumber.__lshift__ x num
  = Ok (mkBitNumber (Z.shiftl (__number x) num)
          (bit_count (Z.shiftl (__number x) num))).
Proof.
  intros Hx Hnum; unfold BitNumber.__lshift__, int_lshift.
  destruct (num <? 0) eqn:E; [apply Z.ltb_lt in E; lia|]. cbn [bind].
  apply BitNumber_init_int. now apply Z.shiftl_nonneg.
Qed.

(** ** Addition *)

Lemma GFNumber_add_nonneg (self other : GFNumber) :
  0 <= GFNumber.__int__ self -> 0 <= GFNumber.__int__ other ->
  GFNumber.__add__ self (VGF other)
  = GFNumber.__init__ cls_GFNumber
      (VInt (Z.lxor (GFNumber.__int__ self) (GFNumber.__int__ other))).
Proof.
  unfold GFNumber.__int__, BitNumber.__int__; intros Hs Ho.
  unfold GFNumber.__add__. rewrite GFNumber_init_copy; cbn [bind _number].
  rewrite BitNumber_xor_nonneg by assumption; cbn [bind].
  rewrite GFNumber_init_bit, GFNumber_init_int by (now apply Z.lxor_nonneg).
  reflexivity.
Qed.

(** C7: the sum of two field numbers is the field number of the bitwise XOR
    of their values, so every field number is its own additive inverse. *)
Theorem GFNumber_add_is_xor_and_self_inverse (a b : Z) :
  0 <= a -> 0 <= b ->
  GF_sum a b = GFNumber.__init__ cls_GFNumber (VInt (Z.lxor a b))
  /\ GF_sum a a = GFNumber.__init__ cls_GFNumber (VInt 0)
  /\ GF_sum a a = Ok (mkGFNumber cls_GFNumber (mkBitNumber 0 1) 1).
Proof.
  intros Ha Hb.
  assert (forall x y, 0 <= x -> 0 <= y ->
            GF_sum x y = GFNumber.__init__ cls_GFNumber (VInt (Z.lxor x y))) as Hsum.
  { intros x y Hx Hy; unfold GF_sum.
    rewrite !GFNumber_init_int by assumption; cbn [bind].
    now rewrite GFNumber_add_nonneg by assumption. }
  split; [now apply Hsum|].
  rewrite Hsum, Z.lxor_nilpotent by assumption. split; reflexivity.
Qed.

Lemma GFNumber_add_witness :
  GF_sum 175 3 = GFNumber.__init__ cls_GFNumber (VInt (Z.lxor 175 3))
  /\ GF_sum 175 175 = GFNumber.__init__ cls_GFNumber (VInt 0)
  /\ GF_sum 175 175 = Ok (mkGFNumber cls_GFNumber (mkBitNumber 0 1) 1).
Proof. apply (GFNumber_add_is_xor_and_self_inverse 175 3); lia. Defined.

(** ** Carry-less multiplication *)

Section Lxor.

(** XOR on numbers written as [2 * x + bit]. *)
Lemma lxor_cons (x y : Z) (p q : bool) :
  Z.lxor (2 * x + Z.b2z p) (2 * y + Z.b2z q)
  = 2 * Z.lxor x y + Z.b2z (xorb p q).
Proof.
  apply Z.bits_inj'; intros n Hn. rewrite Z.lxor_spec.
  destruct (Z.eq_dec n 0) as [->|Hnz].
  - now rewrite !Z.testbit_0_r.
  - replace n with (Z.succ (n - 1)) by lia.
    rewrite !Z.testbit_succ_r by lia. now rewrite Z.lxor_spec.
Qed.

Lemma lxor_double (x y : Z) : Z.lxor (2 * x) (2 * y) = 2 * Z.lxor x y.
Proof.
  pose proof (lxor_cons x y false false) as H; cbn [Z.b2z xorb] in H.
  now rewrite !Z.add_0_r in H.
Qed.

Lemma lxor_odd_double (x y : Z) :
  Z.lxor (2 * x + 1) (2 * y) = 2 * Z.lxor x y + 1.
Proof.
  pose proof (lxor_cons x y true false) as H; cbn [Z.b2z xorb] in H.
  now rewrite !Z.add_0_r in H.
Qed.

Lemma lxor_odd_odd (x y : Z) :
  Z.lxor (2 * x + 1) (2 * y + 1) = 2 * Z.lxor x y.
Proof.
  pose proof (lxor_cons x y true true) as H; cbn [Z.b2z xorb] in H.
  now rewrite !Z.add_0_r in H.
Qed.

Lemma shiftl_double (x k : Z) :
  0 <= k -> Z.shiftl (2 * x) k = Z.shiftl x (k + 1).
Proof.
  intros Hk. rewrite !Z.shiftl_mul_pow2, Z.pow_add_r by lia.
  rewrite Z.pow_1_r. ring.
Qed.

End Lxor.

Section Clmul.

Lemma clmul_pos_nonneg (a : Z) (b : positive) : 0 <= a -> 0 <= clmul_pos a b.
Proof.
  intros Ha; induction b as [b IH|b IH|]; cbn [clmul_pos];
    [apply Z.lxor_nonneg|..]; lia.
Qed.

Lemma clmul_nonneg (a b : Z) : 0 <= a -> 0 <= clmul a b.
Proof.
  intros Ha; destruct b; cbn [clmul]; [lia | now apply clmul_pos_nonneg | lia].
Qed.

Lemma clmul_pos_0_l (b : positive) : clmul_pos 0 b = 0.
Proof. induction b as [b IH|b IH|]; cbn [clmul_pos]; rewrite ?IH; reflexivity. Qed.

Lemma clmul_pos_1_l (b : positive) : clmul_pos 1 b = Z.pos b.
Proof. induction b as [b IH|b IH|]; cbn [clmul_pos]; rewrite ?IH; reflexivity. Qed.

Lemma clmul_pos_double_l (a : Z) (b : positive) :
  clmul_pos (2 * a) b = 2 * clmul_pos a b.
Proof.
  induction b as [b IH|b IH|]; cbn [clmul_pos]; rewrite ?IH;
    [apply lxor_double | reflexivity | reflexivity].
Qed.

Lemma clmul_pos_odd_l (a : Z) (b : positive) :
  clmul_pos (2 * a + 1) b = Z.lxor (Z.pos b) (2 * clmul_pos a b).
Proof.
  induction b as [b IH|b IH|]; cbn [clmul_pos]; rewrite ?IH.
  - change (Z.pos b~1) with (2 * Z.pos b + 1).
    rewrite !lxor_odd_double. f_equal. f_equal.
    rewrite <- !Z.lxor_assoc. f_equal. apply Z.lxor_comm.
  - change (Z.pos b~0) with (2 * Z.pos b). now rewrite lxor_double.
  - change 1 with (2 * 0 + 1) at 2. rewrite lxor_odd_double, Z.lxor_0_l.
    reflexivity.
Qed.

Lemma clmul_pos_comm (a b : positive) :
  clmul_pos (Z.pos a) b = clmul_pos (Z.pos b) a.
Proof.
  revert b; induction a as [a IH|a IH|]; intros b; cbn [clmul_pos].
  - change (Z.pos a~1) with (2 * Z.pos a + 1).
    now rewrite clmul_pos_odd_l, IH.
  - change (Z.pos a~0) with (2 * Z.pos a).
    now rewrite clmul_pos_double_l, IH.
  - apply clmul_pos_1_l.
Qed.

Lemma clmul_comm (a b : Z) : 0 <= a -> 0 <= b -> clmul a b = clmul b a.
Proof.
  intros Ha Hb; destruct a as [|a|a], b as [|b|b]; try lia; cbn [clmul].
  - apply clmul_pos_0_l.
  - symmetry; apply clmul_pos_0_l.
  - apply clmul_pos_comm.
Qed.

Lemma xor_shifts_clmul_pos (a : Z) (p : positive) (k acc : Z) :
  0 <= k ->
  xor_shifts a k (bits_of_pos p) acc
  = Z.lxor acc (Z.shiftl (clmul_pos a p) k).
Proof.
  revert k acc; induction p as [p IH|p IH|]; intros k acc Hk;
    cbn [bits_of_pos xor_shifts clmul_pos].
  - rewrite IH by lia. rewrite Z.shiftl_lxor, <- shiftl_double by lia.
    now rewrite Z.lxor_assoc.
  - rewrite IH by lia. now rewrite shiftl_double by lia.
  - reflexivity.
Qed.

End Clmul.

(** ** The loop of [GFNumber.__mul__] *)

Lemma truthy_b2z (bit : bool) : truthy (Z.b2z bit) = bit.
Proof. destruct bit; reflexivity. Qed.

Lemma getitem_in_bounds (b : BitNumber) (i : Z) :
  0 <= i < __len b ->
  BitNumber.__getitem__ b i = Ok (Z.b2z (Z.testbit (__number b) i)).
Proof.
  intros Hi. rewrite getitem_eq.
  destruct (in_bounds_iff i (BitNumber.__len__ b)) as [_ ->]; [|exact Hi].
  rewrite Z.testbit_spec', Z.shiftr_div_pow2 by lia. reflexivity.
Qed.

Lemma range_in_bounds (n : Z) : Forall (fun i => 0 <= i < n) (range n).
Proof.
  apply Forall_forall; intros i Hi. unfold range in Hi.
  apply in_map_iff in Hi as (k & <- & Hk). apply in_seq in Hk. lia.
Qed.

Lemma range_pos_size (p : positive) :
  range (Z.pos (Pos.size p)) = map Z.of_nat (seq 0 (Pos.size_nat p)).
Proof. unfold range. now rewrite <- size_nat_size, Nat2Z.id. Qed.

Lemma testbit_range_pos (p : positive) :
  map (Z.testbit (Z.pos p)) (range (Z.pos (Pos.size p))) = bits_of_pos p.
Proof.
  rewrite range_pos_size.
  induction p as [p IH|p IH|]; cbn [Pos.size_nat bits_of_pos seq map];
    [| |reflexivity].
  - rewrite <- seq_shift, !map_map, <- IH, map_map. f_equal.
    apply map_ext; intros n. rewrite Nat2Z.inj_succ.
    change (Z.pos p~1) with (2 * Z.pos p + 1).
    apply Z.testbit_odd_succ; lia.
  - rewrite <- seq_shift, !map_map, <- IH, map_map. f_equal.
    apply map_ext; intros n. rewrite Nat2Z.inj_succ.
    change (Z.pos p~0) with (2 * Z.pos p).
    apply Z.testbit_even_succ; lia.
Qed.

(** Over the yielded bits of a well-formed [other], the loop accumulates
    the carry-less product. *)
Lemma xor_shifts_range (a b : Z) :
  0 <= b ->
  xor_shifts a 0 (map (Z.testbit b) (range (bit_count b))) 0 = clmul a b.
Proof.
  intros Hb; destruct b as [|p|p]; [reflexivity| |lia].
  rewrite bit_count_pos, testbit_range_pos, xor_shifts_clmul_pos by lia.
  rewrite Z.shiftl_0_r. apply Z.lxor_0_l.
Qed.

Lemma xor_shifts_nonneg (a : Z) (bits : list bool) (k acc : Z) :
  0 <= a -> 0 <= acc -> 0 <= xor_shifts a k bits acc.
Proof.
  intros Ha; revert k acc; induction bits as [|bit rest IH]; intros k acc Hacc;
    cbn [xor_shifts]; [assumption|].
  apply IH. destruct bit; [|assumption].
  apply Z.lxor_nonneg. split; intros _; [now apply Z.shiftl_nonneg | assumption].
Qed.

Lemma mul_loop (self : GFNumber) (other : BitNumber) (idxs : list Z) (k acc : Z) :
  0 <= GFNumber.__int__ self -> 0 <= k -> 0 <= acc ->
  Forall (fun i => 0 <= i < __len other) idxs ->
  for_each (GFNumber.mul_body self)
    (enumerate_from k (map (BitNumber.__getitem__ other) idxs))
    (mkBitNumber acc (bit_count acc))
  = let r := xor_shifts (GFNumber.__int__ self) k
               (map (Z.testbit (__number other)) idxs) acc in
    Ok (mkBitNumber r (bit_count r)).
Proof.
  unfold GFNumber.__int__, BitNumber.__int__; intros Ha.
  revert k acc; induction idxs as [|i idxs IH]; intros k acc Hk Hacc Hin;
    [reflexivity|].
  inversion Hin as [|? ? Hi Hrest]; subst.
  cbn [map enumerate_from for_each xor_shifts].
  rewrite getitem_in_bounds by exact Hi. cbn [bind GFNumber.mul_body].
  rewrite truthy_b2z. destruct (Z.testbit (__number other) i).
  - rewrite BitNumber_lshift_nonneg by assumption. cbn [bind].
    rewrite BitNumber_xor_nonneg
      by (cbn [__number]; try assumption; now apply Z.shiftl_nonneg).
    cbn [bind __number]. apply IH; [lia| |assumption].
    apply Z.lxor_nonneg. split; intros _; [now apply Z.shiftl_nonneg | assumption].
  - cbn [bind]. apply IH; [lia|assumption|assumption].
Qed.

Lemma GFNumber_mul_loop (self : GFNumber) (other : BitNumber) :
  0 <= GFNumber.__int__ self -> wf_bit other ->
  (result_number <- BitNumber.__init__ (VInt 0) ;;
   result_number <- for_each (GFNumber.mul_body self)
                      (enumerate (BitNumber.__iter__ other)) result_number ;;
   GFNumber.__init__ cls_GFNumber (VBit result_number))
  = GFNumber.__init__ cls_GFNumber
      (VInt (clmul (GFNumber.__int__ self) (__number other))).
Proof.
  intros Ha [Hb Hlen].
  rewrite BitNumber_init_int by lia. cbn [bind].
  unfold enumerate, BitNumber.__iter__, BitNumber.__len__.
  rewrite mul_loop by (try assumption; try lia; apply range_in_bounds).
  cbv zeta. cbn [bind]. rewrite Hlen, xor_shifts_range by assumption.
  rewrite GFNumber_init_bit, GFNumber_init_int by (now apply clmul_nonneg).
  reflexivity.
Qed.

(** [GFNumber.__mul__] on a field number and on a plain integer. *)
Lemma GFNumber_mul_object (self other : GFNumber) :
  0 <= GFNumber.__int__ self -> wf_bit (_number other) ->
  GFNumber.__mul__ self (VGF other)
  = GFNumber.__init__ cls_GFNumber
      (VInt (clmul (GFNumber.__int__ self) (GFNumber.__int__ other))).
Proof.
  intros Ha Hwf. unfold GFNumber.__mul__.
  rewrite GFNumber_init_copy. cbn [bind _number].
  now apply GFNumber_mul_loop.
Qed.

Lemma GFNumber_mul_int (self : GFNumber) (b : Z) :
  0 <= GFNumber.__int__ self -> 0 <= b ->
  GFNumber.__mul__ self (VInt b)
  = GFNumber.__init__ cls_GFNumber (VInt (clmul (GFNumber.__int__ self) b)).
Proof.
  intros Ha Hb. unfold GFNumber.__mul__.
  rewrite GFNumber_init_int by assumption. cbn [bind _number].
  rewrite GFNumber_mul_loop; [reflexivity | assumption | split; [assumption|reflexivity]].
Qed.

Lemma GFNumber_mul_negative (self : GFNumber) (b : Z) :
  b < 0 -> GFNumber.__mul__ self (VInt b) = Raise InvalidArgument.
Proof.
  intros Hb. unfold GFNumber.__mul__.
  now rewrite GFNumber_init_negative by assumption.
Qed.

Lemma GF_product_nonneg (a b : Z) :
  0 <= a -> 0 <= b ->
  GF_product a b = GFNumber.__init__ cls_GFNumber (VInt (clmul a b)).
Proof.
  intros Ha Hb. unfold GF_product.
  rewrite GFNumber_init_int by assumption. cbn [bind].
  now rewrite GFNumber_mul_int by assumption.
Qed.

Lemma GF_product_negative (a b : Z) :
  a < 0 \/ b < 0 -> GF_product a b = Raise InvalidArgument.
Proof.
  intros H. unfold GF_product.
  destruct (Z_lt_le_dec a 0) as [Ha|Ha].
  - now rewrite GFNumber_init_negative by assumption.
  - rewrite GFNumber_init_int by assumption. cbn [bind].
    apply GFNumber_mul_negative. lia.
Qed.

Lemma GF_product_comm (a b : Z) : GF_product a b = GF_product b a.
Proof.
  destruct (Z_lt_le_dec a 0) as [Ha|Ha];
    [rewrite !GF_product_negative by lia; reflexivity|].
  destruct (Z_lt_le_dec b 0) as [Hb|Hb];
    [rewrite !GF_product_negative by lia; reflexivity|].
  rewrite !GF_product_nonneg by assumption. now rewrite clmul_comm.
Qed.

(** [GF8Number(a) * b] for operands that fit in 8 bits: the unreduced
    product is rebuilt as a [GF8Number] and scanned once more. *)
Lemma GF8_product_small (a b : Z) :
  0 <= a < 256 -> 0 <= b < 256 ->
  GF8_product a b
  = (product <- GFNumber.__init__ cls_GFNumber (VInt (clmul a b)) ;;
     result <- GF8Number.__init__ (VGF product) false ;;
     r <- GF8Number.__shrink result ;;
     Ok (snd r)).
Proof.
  intros Ha Hb. unfold GF8_product, GF8Number.__mul__.
  rewrite !GF8Number_init_small by (try lia; apply bit_count_le; lia).
  cbn [bind].
  rewrite GFNumber_mul_object;
    [reflexivity | cbn; lia | split; cbn; [lia | reflexivity]].
Qed.

(** ** Commutativity *)

(** C6, as the specification words it, fails: [GF8Number(300)] is reduced
    to 55 on construction, but 300 is refused as a second operand. *)
Lemma GF8_product_300_3_not_commutative :
  GF8_product 300 3 = Ok (mkGFNumber cls_GF8Number (mkBitNumber 89 7) 7)
  /\ GF8_product 3 300 = Raise InvariantViolation
  /\ ~ (forall a b : Z, GF8_product a b = GF8_product b a).
Proof.
  split; [reflexivity|]. split; [reflexivity|].
  intros H. specialize (H 300 3). vm_compute in H. discriminate H.
Qed.

(** C6, amended: [GFNumber(a) * b] and [GFNumber(b) * a] have the same
    outcome for all integers, and [GF8Number(a) * b] and [GF8Number(b) * a]
    have the same outcome whenever both [a] and [b] fit in 8 bits. *)
Theorem product_commutative (a b : Z) :
  GF_product a b = GF_product b a
  /\ (0 <= a < 256 -> 0 <= b < 256 -> GF8_product a b = GF8_product b a).
Proof.
  split; [apply GF_product_comm|]. intros Ha Hb.
  rewrite !GF8_product_small by assumption.
  now rewrite clmul_comm by lia.
Qed.

Lemma product_commutative_witness :
  GF_product 175 3 = GF_product 3 175
  /\ GF8_product 175 3 = GF8_product 3 175.
Proof.
  split.
  - apply (proj1 (product_commutative 175 3)).
  - apply (proj2 (product_commutative 175 3)); lia.
Defined.

(** ** The reduction scan on well-formed numbers *)

Lemma range_down_nil (start stop : Z) : start <= stop -> range_down start stop = [].
Proof.
  intros H; unfold range_down. now replace (Z.to_nat (start - stop)) with O by lia.
Qed.

Lemma range_down_cons (start stop : Z) :
  stop < start -> range_down start stop = start :: range_down (start - 1) stop.
Proof.
  intros H; unfold range_down.
  replace (Z.to_nat (start - stop)) with (S (Z.to_nat (start - 1 - stop))) by lia.
  cbn [seq map]. f_equal; [cbn; lia|].
  rewrite <- seq_shift, map_map. apply map_ext; intros k. lia.
Qed.

Lemma top_bit_clear (x i : Z) :
  0 <= i -> 0 <= x < 2 ^ (i + 1) -> Z.testbit x i = false -> x < 2 ^ i.
Proof.
  intros Hi Hx Hbit. destruct (Z_lt_le_dec x (2 ^ i)) as [|Hge]; [assumption|].
  assert (0 < x) as Hpos by (pose proof (Z.pow_pos_nonneg 2 i); lia).
  assert (Z.log2 x = i) as Hlog.
  { apply Z.log2_unique; [assumption|]. replace (Z.succ i) with (i + 1) by lia. lia. }
  pose proof (Z.bit_log2 x Hpos) as Htop. rewrite Hlog in Htop. congruence.
Qed.

Lemma lxor_below_pow2 (x y k : Z) :
  0 <= x < 2 ^ k -> 0 <= y < 2 ^ k -> 0 <= Z.lxor x y < 2 ^ k.
Proof.
  intros Hx Hy.
  assert (0 <= Z.lxor x y) as Hnn by (apply Z.lxor_nonneg; lia).
  split; [assumption|].
  destruct (Z.eq_dec (Z.lxor x y) 0) as [->|Hnz]; [lia|].
  assert (0 < k) as Hk.
  { destruct (Z_lt_le_dec 0 k) as [|Hle]; [assumption|].
    assert (2 ^ k <= 1) as H1.
    { destruct (Z.eq_dec k 0) as [->|]; [reflexivity|].
      rewrite Z.pow_neg_r by lia. lia. }
    assert (x = 0) by lia. assert (y = 0) by lia. subst.
    now rewrite Z.lxor_0_l in Hnz. }
  apply Z.log2_lt_pow2; [lia|].
  eapply Z.le_lt_trans; [apply Z.log2_lxor; lia|].
  apply Z.max_lub_lt.
  - destruct (Z.eq_dec x 0) as [->|]; [exact Hk | apply Z.log2_lt_pow2; lia].
  - destruct (Z.eq_dec y 0) as [->|]; [exact Hk | apply Z.log2_lt_pow2; lia].
Qed.

Lemma shifted_modulo_bound (i : Z) :
  8 <= i -> 0 <= Z.shiftl 283 (i - 8) < 2 ^ (i + 1).
Proof.
  intros Hi. rewrite Z.shiftl_mul_pow2 by lia.
  replace (i + 1) with (9 + (i - 8)) by lia.
  rewrite Z.pow_add_r by lia.
  pose proof (Z.pow_pos_nonneg 2 (i - 8)). change (2 ^ 9) with 512. nia.
Qed.

Lemma shifted_modulo_top_bit (i : Z) :
  8 <= i -> Z.testbit (Z.shiftl 283 (i - 8)) i = true.
Proof.
  intros Hi. rewrite Z.shiftl_spec by lia.
  now replace (i - (i - 8)) with 8 by lia.
Qed.

(** A turn of the scan that does not raise clears bit [i]. *)
Lemma shrink_body_ok (self self' : GFNumber) (i : Z) :
  GF8Number.MAX_BITS <= i ->
  wf_bit (_number self) -> __number (_number self) < 2 ^ (i + 1) ->
  GF8Number.shrink_body self i = Ok self' ->
  wf_bit (_number self') /\ __number (_number self') < 2 ^ i
  /\ __class__ self' = __class__ self.
Proof.
  unfold GF8Number.MAX_BITS; intros Hi [Hnn Hlen] Hlt.
  unfold GF8Number.shrink_body, GFNumber.__getitem__.
  rewrite getitem_eq.
  destruct ((0 <=? i) && (i <? BitNumber.__len__ (_number self)));
    [|discriminate].
  replace (Z.shiftr (__number (_number self)) i mod 2)
    with (Z.b2z (Z.testbit (__number (_number self)) i))
    by (rewrite Z.testbit_spec', Z.shiftr_div_pow2 by lia; reflexivity).
  cbn [bind]. rewrite truthy_b2z.
  destruct (Z.testbit (__number (_number self)) i) eqn:Hbit.
  - unfold GF8Number.MAX_BITS.
    rewrite BitNumber_lshift_nonneg by (cbn; lia).
    cbn [bind GF8Number.SHRINK_MODULO __number].
    pose proof (shifted_modulo_bound i Hi) as Hm.
    rewrite BitNumber_xor_nonneg by (cbn [__number]; lia).
    cbn [bind __number]. intros H; injection H as <-. cbn [_number __number __len __class__].
    pose proof (lxor_below_pow2 _ _ (i + 1) (conj Hnn Hlt) Hm) as Hx.
    split; [split; cbn [__number __len]; [lia | reflexivity]|].
    split; [|reflexivity].
    apply top_bit_clear; [lia|exact Hx|].
    rewrite Z.lxor_spec, Hbit, shifted_modulo_top_bit by lia. reflexivity.
  - intros H; injection H as <-.
    repeat split; try assumption. apply top_bit_clear; [lia|lia|assumption].
Qed.

Lemma shrink_loop_ok (k : nat) :
  forall (start : Z) (self self' : GFNumber),
    Z.of_nat k = start - (GF8Number.MAX_BITS - 1) ->
    wf_bit (_number self) -> __number (_number self) < 2 ^ (start + 1) ->
    for_each GF8Number.shrink_body
      (items (range_down start (GF8Number.MAX_BITS - 1))) self = Ok self' ->
    wf_bit (_number self') /\ __number (_number self') < 2 ^ GF8Number.MAX_BITS
    /\ __class__ self' = __class__ self.
Proof.
  unfold GF8Number.MAX_BITS.
  induction k as [|k IH]; intros start self self' Hk Hwf Hlt Hloop.
  - rewrite range_down_nil in Hloop by lia. injection Hloop as <-.
    replace start with 7 in Hlt by lia. auto.
  - rewrite range_down_cons in Hloop by lia.
    cbn [items map for_each bind] in Hloop.
    destruct (GF8Number.shrink_body self start) as [self1|e] eqn:Hbody;
      [|discriminate].
    cbn [bind] in Hloop.
    destruct (shrink_body_ok self self1 start) as (Hwf1 & Hlt1 & Hcls1);
      try assumption; [unfold GF8Number.MAX_BITS; lia|].
    destruct (IH (start - 1) self1 self') as (Hwf' & Hlt' & Hcls');
      try assumption; [lia | now replace (start - 1 + 1) with start by lia|].
    repeat split; try apply Hwf'; [assumption | congruence].
Qed.

(** Whatever [__shrink] returns is well formed and fits in [MAX_BITS]. *)
Lemma shrink_ok (self self' : GFNumber) (shrunk : bool) :
  wf_gf self -> GF8Number.__shrink self = Ok (shrunk, self') ->
  wf_gf self' /\ GFNumber.__len__ self' <= GF8Number.MAX_BITS
  /\ __class__ self' = __class__ self.
Proof.
  intros [Hwf Hlen] H. unfold GF8Number.__shrink in H.
  destruct (GFNumber.__len__ self <=? GF8Number.MAX_BITS) eqn:E.
  - apply Z.leb_le in E. injection H as _ <-. repeat split; try apply Hwf; assumption.
  - apply Z.leb_gt in E.
    destruct (for_each _ _ self) as [self1|e] eqn:Hloop; [|discriminate].
    cbn [bind] in H. injection H as _ <-.
    unfold GFNumber.__len__, GF8Number.MAX_BITS in *.
    destruct (shrink_loop_ok (Z.to_nat (_len self - 1 - 7)) (_len self - 1) self self1)
      as (Hwf1 & Hlt1 & Hcls1); try assumption.
    + unfold GF8Number.MAX_BITS; lia.
    + replace (_len self - 1 + 1) with (_len self) by lia.
      rewrite Hlen, (proj2 Hwf). apply bit_count_upper, Hwf.
    + unfold wf_gf, BitNumber.__len__; cbn [_number _len __class__].
      repeat split; try apply Hwf1; [|assumption].
      rewrite (proj2 Hwf1). apply bit_count_le; [apply Hwf1 | lia | assumption].
Qed.

Lemma GFNumber_init_wf (cls : gf_class) (number : value) (self : GFNumber) :
  wf_value number -> GFNumber.__init__ cls number = Ok self ->
  wf_gf self /\ __class__ self = cls.
Proof.
  intros Hwf H. destruct number as [n|b|g|]; cbn [wf_value] in Hwf.
  - destruct (Z_lt_le_dec n 0) as [Hneg|Hpos].
    + rewrite GFNumber_init_negative in H by assumption. discriminate H.
    + rewrite GFNumber_init_int in H by assumption. injection H as <-.
      repeat split; assumption || reflexivity.
  - rewrite GFNumber_init_bit in H. injection H as <-.
    repeat split; try apply Hwf.
  - rewrite GFNumber_init_copy in H. injection H as <-.
    repeat split; try apply Hwf.
  - discriminate H.
Qed.

(** Every [GF8Number] that construction returns fits in 8 bits. *)
Lemma GF8Number_init_wf (number : value) (assert_shrunk : bool) (self : GFNumber) :
  wf_value number -> GF8Number.__init__ number assert_shrunk = Ok self ->
  wf_gf self /\ GFNumber.__len__ self <= 8 /\ __class__ self = cls_GF8Number.
Proof.
  intros Hwf H. unfold GF8Number.__init__ in H.
  destruct (GFNumber.__init__ cls_GF8Number number) as [self0|e] eqn:H0;
    [|discriminate].
  cbn [bind] in H.
  destruct (GF8Number.__shrink self0) as [[shrunk self1]|e] eqn:H1;
    [|discriminate].
  cbn [bind] in H.
  destruct (GFNumber_init_wf _ _ _ Hwf H0) as [Hwf0 Hcls0].
  destruct (shrink_ok _ _ _ Hwf0 H1) as (Hwf1 & Hlen1 & Hcls1).
  destruct (if assert_shrunk then _ else _); [|discriminate].
  cbn [bind] in H. injection H as <-.
  repeat split; try apply Hwf1; [assumption | congruence].
Qed.

(** ** Addition of [GF8Number]s

    [GF8Number] defines no [__add__]: [x + y] on an instance is
    [GFNumber.__add__ x y]. *)

(** C10: the sum of two [GF8Number]s is the plain [GFNumber] of the XOR of
    their values, built without any reduction step; when both operands fit
    in 8 bits, so does the sum. *)
Theorem GF8Number_add_is_inherited (x y : GFNumber) :
  wf_gf x -> wf_gf y ->
  __class__ x = cls_GF8Number -> __class__ y = cls_GF8Number ->
  exists r : GFNumber,
    GFNumber.__add__ x (VGF y) = Ok r
    /\ GFNumber.__init__ cls_GFNumber
         (VInt (Z.lxor (GFNumber.__int__ x) (GFNumber.__int__ y))) = Ok r
    /\ __class__ r = cls_GFNumber
    /\ __class__ r <> cls_GF8Number
    /\ (GFNumber.__len__ x <= 8 -> GFNumber.__len__ y <= 8 ->
        GFNumber.__len__ r <= 8).
Proof.
  intros [[Hx Hxl] Hxg] [[Hy Hyl] Hyg] _ _.
  set (l := Z.lxor (GFNumber.__int__ x) (GFNumber.__int__ y)).
  assert (0 <= l) as Hl by (apply Z.lxor_nonneg; tauto).
  exists (mkGFNumber cls_GFNumber (mkBitNumber l (bit_count l)) (bit_count l)).
  rewrite GFNumber_add_nonneg by assumption. fold l.
  rewrite GFNumber_init_int by assumption.
  repeat split; try discriminate.
  unfold GFNumber.__len__; cbn [_len]. intros Hx8 Hy8.
  rewrite Hxg, Hxl in Hx8. rewrite Hyg, Hyl in Hy8.
  apply bit_count_le in Hx8; [|assumption|lia].
  apply bit_count_le in Hy8; [|assumption|lia].
  apply bit_count_le; [assumption|lia|].
  apply lxor_below_pow2; split; assumption.
Qed.

Lemma GF8Number_add_witness :
  exists r : GFNumber,
    GFNumber.__add__ (mkGFNumber cls_GF8Number (mkBitNumber 175 8) 8)
      (VGF (mkGFNumber cls_GF8Number (mkBitNumber 3 2) 2)) = Ok r
    /\ GFNumber.__init__ cls_GFNumber (VInt (Z.lxor 175 3)) = Ok r
    /\ __class__ r = cls_GFNumber
    /\ __class__ r <> cls_GF8Number
    /\ (8 <= 8 -> 2 <= 8 -> GFNumber.__len__ r <= 8).
Proof.
  apply (GF8Number_add_is_inherited
           (mkGFNumber cls_GF8Number (mkBitNumber 175 8) 8)
           (mkGFNumber cls_GF8Number (mkBitNumber 3 2) 2)).
  - split; [split; [simpl; lia | reflexivity] | reflexivity].
  - split; [split; [simpl; lia | reflexivity] | reflexivity].
  - reflexivity.
  - reflexivity.
Defined.

(** ** Polynomial text *)

Lemma append_empty_r (s : string) : (s ++ "")%string = s.
Proof. induction s as [|c s IH]; cbn; [reflexivity | now rewrite IH]. Qed.

Lemma term_as_written (power : Z) (str_ : string) :
  (if truthy power
   then (("x" ++ (if (power =? 1)%Z then "" else py_str power)) ++ str_)%string
   else ("1" ++ str_)%string)
  = (term power ++ str_)%string.
Proof.
  unfold term, truthy.
  destruct (power =? 0); [reflexivity|]. destruct (power =? 1); reflexivity.
Qed.

Lemma str_loop (other : BitNumber) (idxs : list Z) (k : Z) (seen : list Z) :
  Forall (fun i => 0 <= i < __len other) idxs ->
  for_each GFNumber.str_body
    (enumerate_from k (map (BitNumber.__getitem__ other) idxs))
    (String.concat " + " (map term seen), Z.of_nat (List.length seen))
  = let s := set_positions k (map (Z.testbit (__number other)) idxs) seen in
    Ok (String.concat " + " (map term s), Z.of_nat (List.length s)).
Proof.
  revert k seen; induction idxs as [|i idxs IH]; intros k seen Hin;
    [reflexivity|].
  inversion Hin as [|? ? Hi Hrest]; subst.
  cbn [map enumerate_from for_each set_positions].
  rewrite getitem_in_bounds by exact Hi. cbn [bind GFNumber.str_body].
  rewrite truthy_b2z. destruct (Z.testbit (__number other) i); cbn [bind].
  - rewrite term_as_written.
    replace (Z.of_nat (List.length seen) + 1)
      with (Z.of_nat (List.length (k :: seen))) by (cbn [List.length]; lia).
    destruct seen as [|j seen].
    + cbn [List.length Z.of_nat truthy Z.eqb negb map String.concat].
      rewrite append_empty_r. exact (IH (k + 1) [k] Hrest).
    + replace (truthy (Z.of_nat (List.length (j :: seen)))) with true
        by (unfold truthy; cbn [List.length];
            destruct (Z.of_nat (S (List.length seen)) =? 0) eqn:E;
            [apply Z.eqb_eq in E; lia | reflexivity]).
      exact (IH (k + 1) (k :: j :: seen) Hrest).
  - exact (IH (k + 1) seen Hrest).
Qed.

Lemma set_positions_seq (f : Z -> bool) (m s : nat) (seen : list Z) :
  set_positions (Z.of_nat s) (map f (map Z.of_nat (seq s m))) seen
  = (rev (filter f (map Z.of_nat (seq s m))) ++ seen)%list.
Proof.
  revert s seen; induction m as [|m IH]; intros s seen; [reflexivity|].
  cbn [seq map set_positions filter].
  replace (Z.of_nat s + 1) with (Z.of_nat (S s)) by lia. rewrite IH.
  destruct (f (Z.of_nat s)); [|reflexivity].
  cbn [rev]. now rewrite <- app_assoc.
Qed.

Lemma rev_range (n : Z) : rev (range n) = range_down (n - 1) (-1).
Proof.
  destruct (Z_lt_le_dec 0 n) as [Hpos|Hneg].
  - rewrite <- (Z2Nat.id n) by lia. generalize (Z.to_nat n) as m.
    induction m as [|m IH]; [reflexivity|].
    unfold range in *. rewrite Nat2Z.id in *.
    rewrite seq_S, map_app, rev_app_distr. cbn [map rev app Nat.add].
    rewrite IH, (range_down_cons (Z.of_nat (S m) - 1)) by lia.
    f_equal; [lia | f_equal; lia].
  - unfold range. replace (Z.to_nat n) with O by lia.
    now rewrite range_down_nil by lia.
Qed.

Lemma bit_count_as_log2 (n : Z) : 0 <= n -> bit_count n = Z.log2 n + 1.
Proof.
  intros Hn. destruct (Z.eq_dec n 0) as [->|]; [reflexivity|].
  apply bit_count_log2; lia.
Qed.

Lemma GFNumber_str_wf (self : GFNumber) :
  wf_bit (_number self) ->
  GFNumber.__str__ self = Ok (polynomial_text (GFNumber.__int__ self)).
Proof.
  intros [Hnn Hlen]. unfold GFNumber.__str__, enumerate, BitNumber.__iter__.
  rewrite (str_loop (_number self) _ 0 []) by apply range_in_bounds.
  cbv zeta. cbn [bind fst]. f_equal.
  unfold polynomial_text, set_bits_descending, GFNumber.__int__, BitNumber.__int__.
  unfold range at 1.
  rewrite (set_positions_seq _ _ 0 []), app_nil_r.
  change (map Z.of_nat (seq 0 (Z.to_nat (BitNumber.__len__ (_number self)))))
    with (range (BitNumber.__len__ (_number self))).
  rewrite <- filter_rev, rev_range. unfold BitNumber.__len__.
  rewrite Hlen, bit_count_as_log2 by assumption.
  now replace (Z.log2 (__number (_number self)) + 1 - 1)
    with (Z.log2 (__number (_number self))) by lia.
Qed.

(** The positions listed are the set bits, each once, in falling order. *)
Lemma range_down_In (start stop i : Z) :
  In i (range_down start stop) <-> stop < i <= start.
Proof.
  unfold range_down. rewrite in_map_iff. split.
  - intros (k & <- & Hk). apply in_seq in Hk. lia.
  - intros Hi. exists (Z.to_nat (start - i)). split; [lia|]. apply in_seq. lia.
Qed.

Lemma set_bits_descending_In (n i : Z) :
  0 <= n -> (In i (set_bits_descending n) <-> Z.testbit n i = true).
Proof.
  intros Hn. unfold set_bits_descending. rewrite filter_In, range_down_In.
  split; [tauto|]. intros Hbit. split; [|assumption].
  destruct (Z_lt_le_dec i 0) as [Hneg|Hpos];
    [rewrite Z.testbit_neg_r in Hbit by assumption; discriminate|].
  destruct (Z_lt_le_dec (Z.log2 n) i) as [Hhigh|]; [|lia].
  rewrite Z.bits_above_log2 in Hbit by lia. discriminate.
Qed.

Lemma range_down_falling (k : nat) :
  forall start stop : Z,
    Z.of_nat k = Z.max 0 (start - stop) ->
    StronglySorted Z.gt (range_down start stop).
Proof.
  induction k as [|k IH]; intros start stop Hk.
  - rewrite range_down_nil by lia. constructor.
  - rewrite range_down_cons by lia. constructor; [apply IH; lia|].
    apply Forall_forall; intros j Hj. apply range_down_In in Hj. lia.
Qed.

Lemma filter_falling (f : Z -> bool) (l : list Z) :
  StronglySorted Z.gt l -> StronglySorted Z.gt (filter f l).
Proof.
  induction 1 as [|x l Hl IH Hx]; cbn [filter]; [constructor|].
  destruct (f x); [|assumption]. constructor; [assumption|].
  apply Forall_forall; intros j Hj. apply filter_In in Hj as [Hj _].
  revert j Hj. now apply Forall_forall.
Qed.

Lemma set_bits_descending_falling (n : Z) :
  StronglySorted Z.gt (set_bits_descending n).
Proof.
  apply filter_falling.
  apply (range_down_falling (Z.to_nat (Z.max 0 (Z.log2 n - -1)))). lia.
Qed.

(** C9: [GFNumber.__str__] renders the set bits from the highest down to
    bit 0, each as its term (["1"] for bit 0, a bare ["x"] for bit 1, ["x"]
    followed by the decimal degree above), joined by [" + "]; the value 0
    renders as the empty text. *)
Theorem GFNumber_str_is_polynomial_text :
  (forall self : GFNumber,
      wf_bit (_number self) ->
      GFNumber.__str__ self
      = Ok (String.concat " + "
              (map term (set_bits_descending (GFNumber.__int__ self))))
        /\ StronglySorted Z.gt (set_bits_descending (GFNumber.__int__ self))
        /\ forall i : Z,
             In i (set_bits_descending (GFNumber.__int__ self))
             <-> Z.testbit (GFNumber.__int__ self) i = true)
  /\ term 0 = "1"%string /\ term 1 = "x"%string
  /\ (forall i : Z, 2 <= i -> term i = ("x" ++ py_str i)%string)
  /\ (g <- GFNumber.__init__ cls_GFNumber (VInt 0) ;; GFNumber.__str__ g)
     = Ok ""%string.
Proof.
  split; [|repeat split].
  - intros self Hwf. split; [exact (GFNumber_str_wf self Hwf)|].
    split; [apply set_bits_descending_falling|].
    intros i. apply set_bits_descending_In, Hwf.
  - intros i Hi. unfold term.
    destruct (i =? 0) eqn:E0; [apply Z.eqb_eq in E0; lia|].
    destruct (i =? 1) eqn:E1; [apply Z.eqb_eq in E1; lia|]. reflexivity.
Qed.

Lemma GFNumber_str_witness :
  GFNumber.__str__ (mkGFNumber cls_GFNumber (mkBitNumber 175 8) 8)
  = Ok "x7 + x5 + x3 + x2 + x + 1"%string.
Proof.
  refine (proj1 (proj1 GFNumber_str_is_polynomial_text
                   (mkGFNumber cls_GFNumber (mkBitNumber 175 8) 8) _)).
  split; [simpl; lia | reflexivity].
Defined.

(** ** What the reduction scan can raise *)

Lemma shrink_body_raises (self : GFNumber) (i : Z) (e : exn) :
  GF8Number.MAX_BITS <= i -> 0 <= __number (_number self) ->
  GF8Number.shrink_body self i = Raise e -> e = IndexOutOfRange.
Proof.
  unfold GF8Number.MAX_BITS; intros Hi Hnn.
  unfold GF8Number.shrink_body, GFNumber.__getitem__.
  rewrite getitem_eq.
  destruct ((0 <=? i) && (i <? BitNumber.__len__ (_number self)));
    [|intros H; injection H as <-; reflexivity].
  cbn [bind]. destruct (truthy _); [|discriminate].
  unfold GF8Number.MAX_BITS.
  rewrite BitNumber_lshift_nonneg by (cbn; lia).
  cbn [bind GF8Number.SHRINK_MODULO __number].
  pose proof (shifted_modulo_bound i Hi) as Hm.
  rewrite BitNumber_xor_nonneg by (cbn [__number]; lia).
  discriminate.
Qed.

Lemma shrink_loop_raises (k : nat) :
  forall (start : Z) (self : GFNumber) (e : exn),
    Z.of_nat k = start - (GF8Number.MAX_BITS - 1) ->
    wf_bit (_number self) -> __number (_number self) < 2 ^ (start + 1) ->
    for_each GF8Number.shrink_body
      (items (range_down start (GF8Number.MAX_BITS - 1))) self = Raise e ->
    e = IndexOutOfRange.
Proof.
  unfold GF8Number.MAX_BITS.
  induction k as [|k IH]; intros start self e Hk Hwf Hlt Hloop.
  - rewrite range_down_nil in Hloop by lia. discriminate Hloop.
  - rewrite range_down_cons in Hloop by lia.
    cbn [items map for_each bind] in Hloop.
    destruct (GF8Number.shrink_body self start) as [self1|e1] eqn:Hbody.
    + cbn [bind] in Hloop.
      destruct (shrink_body_ok self self1 start) as (Hwf1 & Hlt1 & _);
        try assumption; [unfold GF8Number.MAX_BITS; lia|].
      apply (IH (start - 1) self1 e); try assumption; [lia|].
      now replace (start - 1 + 1) with start by lia.
    + cbn [bind] in Hloop. injection Hloop as <-.
      apply (shrink_body_raises self start e1);
        [unfold GF8Number.MAX_BITS; lia | apply Hwf | assumption].
Qed.

Lemma shrink_raises (self : GFNumber) (e : exn) :
  wf_gf self -> GF8Number.__shrink self = Raise e -> e = IndexOutOfRange.
Proof.
  intros [Hwf Hlen] H. unfold GF8Number.__shrink in H.
  destruct (GFNumber.__len__ self <=? GF8Number.MAX_BITS) eqn:E; [discriminate|].
  apply Z.leb_gt in E.
  destruct (for_each _ _ self) as [self1|e1] eqn:Hloop; [discriminate|].
  cbn [bind] in H. injection H as <-.
  unfold GFNumber.__len__, GF8Number.MAX_BITS in *.
  apply (shrink_loop_raises (Z.to_nat (_len self - 1 - 7)) (_len self - 1) self e1);
    try assumption.
  - unfold GF8Number.MAX_BITS; lia.
  - replace (_len self - 1 + 1) with (_len self) by lia.
    rewrite Hlen, (proj2 Hwf). apply bit_count_upper, Hwf.
Qed.

(** X1, the reduction of 8-bit products: [GF8Number(a) * b] either returns a
    well-formed [GF8Number] of at most 8 bits, or raises the out-of-range
    [ValueError] of the scan; one top-down pass that comes to its end
    leaves nothing above bit 7. *)
Theorem GF8_product_outcome (a b : Z) :
  0 <= a < 256 -> 0 <= b < 256 ->
  (exists r : GFNumber,
      GF8_product a b = Ok r /\ wf_gf r /\ GFNumber.__len__ r <= 8
      /\ __class__ r = cls_GF8Number)
  \/ GF8_product a b = Raise IndexOutOfRange.
Proof.
  intros Ha Hb. rewrite GF8_product_small by assumption.
  assert (0 <= clmul a b) as Hc by (apply clmul_nonneg; lia).
  rewrite GFNumber_init_int by assumption. cbn [bind].
  set (product := mkGFNumber cls_GFNumber _ _).
  assert (wf_value (VGF product)) as Hwf by (split; [exact Hc | reflexivity]).
  destruct (GF8Number.__init__ (VGF product) false) as [r|e] eqn:Hinit.
  - destruct (GF8Number_init_wf _ _ _ Hwf Hinit) as (Hr & Hlen & Hcls).
    left; exists r. cbn [bind]. rewrite shrink_short by exact Hlen.
    repeat split; try apply Hr; assumption.
  - right. cbn [bind]. f_equal.
    unfold GF8Number.__init__ in Hinit.
    rewrite GFNumber_init_copy in Hinit. cbn [bind] in Hinit.
    destruct (GF8Number.__shrink _) as [[shrunk self1]|e1] eqn:Hs;
      cbn [bind] in Hinit; [discriminate|].
    injection Hinit as <-. apply (shrink_raises _ _) in Hs; [exact Hs|].
    split; [split; [exact Hc | reflexivity] | reflexivity].
Qed.

Lemma GF8_product_outcome_witness :
  (exists r : GFNumber,
      GF8_product 175 3 = Ok r /\ wf_gf r /\ GFNumber.__len__ r <= 8
      /\ __class__ r = cls_GF8Number)
  \/ GF8_product 175 3 = Raise IndexOutOfRange.
Proof. apply (GF8_product_outcome 175 3); lia. Defined.

(** ** [BitNumber]: construction, XOR and shifts *)

(** X2: [BitNumber(number)] keeps a non-negative integer as it is and
    caches the one length [L >= 1] with [2 ^ (L - 1) <= max(n, 1) < 2 ^ L];
    it copies another [BitNumber] field by field; a negative integer is a
    [ValueError], any other argument a [TypeError]. *)
Theorem BitNumber_init_outcome (number : value) :
  match number with
  | VInt n =>
      if n <? 0 then BitNumber.__init__ number = Raise InvalidArgument
      else exists b : BitNumber,
          BitNumber.__init__ number = Ok b
          /\ BitNumber.__int__ b = n
          /\ 2 ^ (BitNumber.__len__ b - 1) <= Z.max n 1 < 2 ^ BitNumber.__len__ b
  | VBit other => BitNumber.__init__ number = Ok other
  | VGF _ | VOther => BitNumber.__init__ number = Raise (TypeError "number")
  end.
Proof.
  destruct number as [n|b|g|]; [|apply BitNumber_init_copy|reflexivity|reflexivity].
  destruct (n <? 0) eqn:E.
  - apply Z.ltb_lt in E. now apply BitNumber_init_negative.
  - apply Z.ltb_ge in E. exists (mkBitNumber n (bit_count n)).
    split; [now apply BitNumber_init_int|]. split; [reflexivity|].
    unfold BitNumber.__len__; cbn [__len].
    destruct (Z.eq_dec n 0) as [->|Hnz]; [split; reflexivity|].
    rewrite Z.max_l by lia.
    split; [apply bit_count_lower | apply bit_count_upper]; lia.
Qed.

Lemma BitNumber_xor_int (x : BitNumber) (b : Z) :
  0 <= __number x -> 0 <= b ->
  BitNumber.__xor__ x (VInt b)
  = BitNumber.__init__ (VInt (Z.lxor (__number x) b)).
Proof.
  intros Hx Hb; unfold BitNumber.__xor__.
  now rewrite BitNumber_init_int by assumption.
Qed.

(** X3: on non-negative operands [BitNumber(a) ^ b] is [BitNumber(a xor b)],
    whether [b] comes as an integer or as a [BitNumber], so XOR-ing the
    same operand twice gives [BitNumber(a)] back; a negative integer
    operand is a [ValueError]. *)
Theorem BitNumber_xor_self_inverse (a b : Z) :
  0 <= a ->
  (0 <= b ->
   (x <- BitNumber.__init__ (VInt a) ;; BitNumber.__xor__ x (VInt b))
   = BitNumber.__init__ (VInt (Z.lxor a b))
   /\ (x <- BitNumber.__init__ (VInt a) ;;
       other <- BitNumber.__init__ (VInt b) ;;
       BitNumber.__xor__ x (VBit other))
      = BitNumber.__init__ (VInt (Z.lxor a b))
   /\ xor_twice a b = BitNumber.__init__ (VInt a))
  /\ (b < 0 ->
      (x <- BitNumber.__init__ (VInt a) ;; BitNumber.__xor__ x (VInt b))
      = Raise InvalidArgument).
Proof.
  intros Ha; split.
  - intros Hb.
    assert (0 <= Z.lxor a b) as Hab by now apply Z.lxor_nonneg.
    unfold xor_twice. rewrite !BitNumber_init_int by assumption. cbn [bind].
    rewrite BitNumber_xor_int, BitNumber_xor_nonneg by assumption.
    cbn [__number]. rewrite BitNumber_init_int by assumption.
    repeat split. cbn [bind].
    rewrite BitNumber_xor_int by assumption. cbn [__number].
    rewrite Z.lxor_assoc, Z.lxor_nilpotent, Z.lxor_0_r.
    now apply BitNumber_init_int.
  - intros Hb. rewrite BitNumber_init_int by assumption. cbn [bind].
    unfold BitNumber.__xor__. now rewrite BitNumber_init_negative by assumption.
Qed.

Lemma BitNumber_xor_witness :
  (x <- BitNumber.__init__ (VInt 175) ;; BitNumber.__xor__ x (VInt 3))
  = BitNumber.__init__ (VInt (Z.lxor 175 3))
  /\ xor_twice 175 3 = BitNumber.__init__ (VInt 175)
  /\ (x <- BitNumber.__init__ (VInt 175) ;; BitNumber.__xor__ x (VInt (-3)))
     = Raise InvalidArgument.
Proof.
  pose proof (BitNumber_xor_self_inverse 175 3 ltac:(lia)) as [H _].
  pose proof (BitNumber_xor_self_inverse 175 (-3) ltac:(lia)) as [_ Hneg].
  destruct (H ltac:(lia)) as (H1 & _ & H3).
  split; [exact H1|]. split; [exact H3 | apply Hneg; lia].
Defined.

Lemma bit_count_shiftl (n k : Z) :
  0 < n -> 0 <= k -> bit_count (Z.shiftl n k) = bit_count n + k.
Proof.
  intros Hn Hk.
  assert (0 < Z.shiftl n k)
    by (rewrite Z.shiftl_mul_pow2 by lia;
        pose proof (Z.pow_pos_nonneg 2 k); nia).
  rewrite !bit_count_log2 by assumption.
  rewrite Z.log2_shiftl by lia. lia.
Qed.

(** X4: shifting a well-formed [BitNumber] left by [k >= 0] multiplies its
    value by [2 ^ k] and, unless the value is 0, adds [k] to its length;
    shifting the result right by [k] gives the number back; a right shift
    divides by [2 ^ k], rounding down; a negative count is a
    [ValueError]. *)
Theorem BitNumber_shifts (b : BitNumber) (k : Z) :
  wf_bit b ->
  if k <? 0
  then BitNumber.__lshift__ b k = Raise (ValueError "negative shift count")
       /\ BitNumber.__rshift__ b k = Raise (ValueError "negative shift count")
  else exists s : BitNumber,
      BitNumber.__lshift__ b k = Ok s
      /\ wf_bit s
      /\ BitNumber.__int__ s = BitNumber.__int__ b * 2 ^ k
      /\ (0 < BitNumber.__int__ b ->
          BitNumber.__len__ s = BitNumber.__len__ b + k)
      /\ BitNumber.__rshift__ s k = Ok b
      /\ BitNumber.__rshift__ b k
         = BitNumber.__init__ (VInt (BitNumber.__int__ b / 2 ^ k)).
Proof.
  intros [Hnn Hlen]. destruct (k <? 0) eqn:E.
  - unfold BitNumber.__lshift__, BitNumber.__rshift__, int_lshift, int_rshift.
    rewrite E. split; reflexivity.
  - apply Z.ltb_ge in E.
    exists (mkBitNumber (Z.shiftl (__number b) k)
              (bit_count (Z.shiftl (__number b) k))).
    unfold BitNumber.__int__, BitNumber.__len__; cbn [__number __len].
    split; [now apply BitNumber_lshift_nonneg|].
    split; [split; [now apply Z.shiftl_nonneg | reflexivity]|].
    split; [now apply Z.shiftl_mul_pow2|].
    split; [intros Hpos; rewrite Hlen; now apply bit_count_shiftl|].
    unfold BitNumber.__rshift__, int_rshift; cbn [__number].
    destruct (k <? 0) eqn:E'; [apply Z.ltb_lt in E'; lia|]. cbn [bind].
    rewrite Z.shiftr_shiftl_l, Z.sub_diag, Z.shiftl_0_r by lia.
    rewrite BitNumber_init_int by assumption.
    rewrite Z.shiftr_div_pow2 by assumption.
    split; [|reflexivity]. destruct b as [n l]; cbn [__number __len] in *.
    now rewrite Hlen.
Qed.

Lemma BitNumber_shifts_witness :
  exists s : BitNumber,
    BitNumber.__lshift__ (mkBitNumber 175 8) 3 = Ok s
    /\ wf_bit s
    /\ BitNumber.__int__ s = 175 * 2 ^ 3
    /\ (0 < 175 -> BitNumber.__len__ s = 8 + 3)
    /\ BitNumber.__rshift__ s 3 = Ok (mkBitNumber 175 8)
    /\ BitNumber.__rshift__ (mkBitNumber 175 8) 3
       = BitNumber.__init__ (VInt (175 / 2 ^ 3)).
Proof.
  apply (BitNumber_shifts (mkBitNumber 175 8) 3).
  split; [simpl; lia | reflexivity].
Defined.

(** ** [BitNumber]: iteration and text *)

Lemma iter_as_testbits (b : BitNumber) :
  BitNumber.__iter__ b
  = map Ok (map (fun i => Z.b2z (Z.testbit (__number b) i))
              (range (BitNumber.__len__ b))).
Proof.
  unfold BitNumber.__iter__. rewrite map_map. apply map_ext_in.
  intros i Hi. apply getitem_in_bounds.
  pose proof (range_in_bounds (BitNumber.__len__ b)) as H.
  rewrite Forall_forall in H. exact (H i Hi).
Qed.

Lemma from_bits_of_pos (p : positive) :
  from_bits (map Z.b2z (bits_of_pos p)) = Z.pos p.
Proof.
  induction p as [p IH|p IH|]; cbn [bits_of_pos map from_bits Z.b2z];
    rewrite ?IH; lia.
Qed.

Lemma testbits_of_wf (n : Z) :
  0 <= n ->
  map (fun i => Z.b2z (Z.testbit n i)) (range (bit_count n))
  = match n with
    | Z.pos p => map Z.b2z (bits_of_pos p)
    | _ => [0]
    end.
Proof.
  intros Hn. destruct n as [|p|p]; [reflexivity| |lia].
  rewrite <- (map_map (Z.testbit (Z.pos p)) Z.b2z).
  now rewrite bit_count_pos, testbit_range_pos.
Qed.

Lemma range_length (n : Z) : 0 <= n -> Z.of_nat (List.length (range n)) = n.
Proof. intros Hn. unfold range. rewrite length_map, length_seq. lia. Qed.

(** X5: iterating over a well-formed [BitNumber] raises nothing and yields
    exactly [len(self)] bits, each 0 or 1, bit [i] being
    [(value >> i) & 1]; weighted by [2 ^ i] from the first one up they add
    up to the value. *)
Theorem BitNumber_iter_bits (b : BitNumber) :
  wf_bit b ->
  exists bits : list Z,
    BitNumber.__iter__ b = items bits
    /\ Z.of_nat (List.length bits) = BitNumber.__len__ b
    /\ Forall (fun bit => bit = 0 \/ bit = 1) bits
    /\ (forall i : nat,
          (i < List.length bits)%nat ->
          nth i bits 0
          = Z.land (Z.shiftr (BitNumber.__int__ b) (Z.of_nat i)) 1)
    /\ from_bits bits = BitNumber.__int__ b.
Proof.
  intros [Hnn Hlen].
  exists (map (fun i => Z.b2z (Z.testbit (__number b) i))
            (range (BitNumber.__len__ b))).
  split; [apply iter_as_testbits|].
  unfold BitNumber.__len__, BitNumber.__int__.
  split.
  { rewrite length_map. apply range_length.
    rewrite Hlen. pose proof (bit_count_positive _ Hnn). lia. }
  split.
  { apply Forall_forall. intros bit Hbit.
    apply in_map_iff in Hbit as (i & <- & _).
    destruct (Z.testbit (__number b) i); cbn; auto. }
  split.
  { intros i Hi. rewrite length_map in Hi. unfold range in *.
    rewrite length_map, length_seq in Hi.
    rewrite map_map.
    set (g := fun x : nat => Z.b2z (Z.testbit (__number b) (Z.of_nat x))).
    rewrite (nth_indep _ 0 (g O))
      by (rewrite length_map, length_seq; exact Hi).
    rewrite (map_nth g), seq_nth by exact Hi. subst g. cbn [Nat.add].
    rewrite land_1_mod_2, Z.testbit_spec', Z.shiftr_div_pow2 by lia.
    reflexivity. }
  rewrite Hlen, testbits_of_wf by assumption.
  destruct (__number b) as [|p|p]; [reflexivity | apply from_bits_of_pos | lia].
Qed.

Lemma BitNumber_iter_witness :
  exists bits : list Z,
    BitNumber.__iter__ (mkBitNumber 175 8) = items bits
    /\ Z.of_nat (List.length bits) = 8
    /\ Forall (fun bit => bit = 0 \/ bit = 1) bits
    /\ (forall i : nat,
          (i < List.length bits)%nat ->
          nth i bits 0 = Z.land (Z.shiftr 175 (Z.of_nat i)) 1)
    /\ from_bits bits = 175.
Proof.
  apply (BitNumber_iter_bits (mkBitNumber 175 8)).
  split; [simpl; lia | reflexivity].
Defined.

Lemma slice_from_2 (c1 c2 : ascii) (s : string) :
  slice_from 2 (String c1 (String c2 s)) = s.
Proof.
  unfold slice_from.
  change (substring 0 (String.length s - 0) s = s).
  now rewrite Nat.sub_0_r, substring_whole.
Qed.

Lemma append_assoc (a b c : string) :
  ((a ++ b) ++ c)%string = (a ++ (b ++ c))%string.
Proof. induction a as [|x a IH]; cbn; [reflexivity | now rewrite IH]. Qed.

Lemma bits_text_app (l l' : list Z) :
  bits_text (l ++ l') = (bits_text l ++ bits_text l')%string.
Proof. induction l as [|x l IH]; cbn; [reflexivity | now rewrite IH]. Qed.

Lemma raw_of_pos_bits (p : positive) (rest : string) :
  BinaryString.Raw.of_pos p rest
  = (bits_text (rev (map Z.b2z (bits_of_pos p))) ++ rest)%string.
Proof.
  revert rest; induction p as [p IH|p IH|]; intros rest;
    cbn [BinaryString.Raw.of_pos bits_of_pos map rev];
    [| |reflexivity];
    rewrite IH, bits_text_app, append_assoc; reflexivity.
Qed.

Lemma py_bin_nonneg (n : Z) :
  0 <= n ->
  py_bin n
  = ("0b" ++ bits_text
               (rev (map (fun i => Z.b2z (Z.testbit n i)) (range (bit_count n)))))%string.
Proof.
  intros Hn. rewrite testbits_of_wf by assumption.
  destruct n as [|p|p]; [reflexivity| |lia].
  unfold py_bin, BinaryString.of_Z, BinaryString.of_pos.
  now rewrite raw_of_pos_bits, append_empty_r.
Qed.

(** X6: the text of a well-formed [BitNumber] has one character per bit
    that iteration yields, the highest bit first; [bin()] is that text
    after ["0b"], [__hex__()] is [hex(value)] without its ["0x"]; both
    texts, read back in their base, are the value. *)
Theorem BitNumber_text (b : BitNumber) :
  wf_bit b ->
  exists bits : list Z,
    BitNumber.__iter__ b = items bits
    /\ BitNumber.__str__ b = bits_text (rev bits)
    /\ py_len (BitNumber.__str__ b) = BitNumber.__len__ b
    /\ BitNumber.bin b = ("0b" ++ BitNumber.__str__ b)%string
    /\ BinaryString.to_Z (BitNumber.bin b) = BitNumber.__int__ b
    /\ HexString.to_Z ("0x" ++ BitNumber.__hex__ b) = BitNumber.__int__ b.
Proof.
  intros [Hnn Hlen].
  exists (map (fun i => Z.b2z (Z.testbit (__number b) i))
            (range (BitNumber.__len__ b))).
  split; [apply iter_as_testbits|].
  unfold BitNumber.bin, BitNumber.__hex__, BitNumber.__len__, BitNumber.__int__.
  assert (BitNumber.__str__ b
          = bits_text
              (rev (map (fun i => Z.b2z (Z.testbit (__number b) i))
                      (range (__len b))))) as Hstr.
  { unfold BitNumber.__str__. rewrite (py_bin_nonneg _ Hnn), Hlen.
    apply slice_from_2. }
  split; [exact Hstr|].
  split; [rewrite Hlen; reflexivity|].
  split; [rewrite Hstr, Hlen; apply (py_bin_nonneg _ Hnn)|].
  split; [apply BinaryString.Z_of_of_Z|].
  replace ("0x" ++ slice_from 2 (py_hex (__number b)))%string
    with (py_hex (__number b)); [apply HexString.to_Z_of_Z|].
  destruct (__number b) as [|p|p]; [reflexivity| |lia].
  unfold py_hex, HexString.of_Z, HexString.of_pos.
  now rewrite slice_from_2.
Qed.

Lemma BitNumber_text_witness :
  exists bits : list Z,
    BitNumber.__iter__ (mkBitNumber 175 8) = items bits
    /\ BitNumber.__str__ (mkBitNumber 175 8) = bits_text (rev bits)
    /\ py_len (BitNumber.__str__ (mkBitNumber 175 8)) = 8
    /\ BitNumber.bin (mkBitNumber 175 8)
       = ("0b" ++ BitNumber.__str__ (mkBitNumber 175 8))%string
    /\ BinaryString.to_Z (BitNumber.bin (mkBitNumber 175 8)) = 175
    /\ HexString.to_Z ("0x" ++ BitNumber.__hex__ (mkBitNumber 175 8)) = 175.
Proof.
  apply (BitNumber_text (mkBitNumber 175 8)).
  split; [simpl; lia | reflexivity].
Defined.

(** ** Algebra of the carry-less product *)

Lemma clmul_pos_lxor_l (x y : Z) (p : positive) :
  clmul_pos (Z.lxor x y) p = Z.lxor (clmul_pos x p) (clmul_pos y p).
Proof.
  induction p as [p IH|p IH|]; cbn [clmul_pos]; rewrite ?IH.
  - rewrite <- lxor_double, !Z.lxor_assoc. f_equal.
    rewrite <- !Z.lxor_assoc. f_equal. apply Z.lxor_comm.
  - now rewrite lxor_double.
  - reflexivity.
Qed.

Lemma clmul_lxor_l (x y b : Z) :
  clmul (Z.lxor x y) b = Z.lxor (clmul x b) (clmul y b).
Proof. destruct b; cbn [clmul]; [reflexivity | apply clmul_pos_lxor_l | reflexivity]. Qed.

Lemma clmul_lxor_r (a x y : Z) :
  0 <= a -> 0 <= x -> 0 <= y ->
  clmul a (Z.lxor x y) = Z.lxor (clmul a x) (clmul a y).
Proof.
  intros Ha Hx Hy.
  rewrite (clmul_comm a (Z.lxor x y)) by (try assumption; now apply Z.lxor_nonneg).
  rewrite clmul_lxor_l. now rewrite (clmul_comm x a), (clmul_comm y a).
Qed.

Lemma clmul_double_r (a b : Z) : clmul a (2 * b) = 2 * clmul a b.
Proof. destruct b; reflexivity. Qed.

Lemma clmul_0_r (a : Z) : clmul a 0 = 0.
Proof. reflexivity. Qed.

Lemma clmul_1_r (a : Z) : clmul a 1 = a.
Proof. reflexivity. Qed.

Lemma clmul_pow2_r (a : Z) (j : nat) :
  clmul a (2 ^ Z.of_nat j) = Z.shiftl a (Z.of_nat j).
Proof.
  induction j as [|j IH]; [now rewrite Z.shiftl_0_r|].
  rewrite Nat2Z.inj_succ, Z.pow_succ_r, clmul_double_r, IH by lia.
  rewrite !Z.shiftl_mul_pow2, Z.pow_succ_r by lia. ring.
Qed.

Lemma clmul_pos_assoc (a b : Z) (c : positive) :
  0 <= a -> 0 <= b ->
  clmul_pos (clmul a b) c = clmul a (clmul_pos b c).
Proof.
  intros Ha Hb. induction c as [c IH|c IH|]; cbn [clmul_pos]; rewrite ?IH.
  - rewrite <- clmul_double_r.
    rewrite clmul_lxor_r; try assumption; [reflexivity|].
    pose proof (clmul_pos_nonneg b c Hb). lia.
  - now rewrite clmul_double_r.
  - reflexivity.
Qed.

Lemma clmul_assoc (a b c : Z) :
  0 <= a -> 0 <= b -> 0 <= c ->
  clmul (clmul a b) c = clmul a (clmul b c).
Proof.
  intros Ha Hb Hc. destruct c as [|c|c]; [reflexivity| |lia].
  cbn [clmul]. now apply clmul_pos_assoc.
Qed.

Lemma bit_count_unique (n L : Z) :
  0 < n -> 2 ^ (L - 1) <= n < 2 ^ L -> bit_count n = L.
Proof.
  intros Hn HL. rewrite bit_count_log2 by assumption.
  assert (Z.log2 n = L - 1); [|lia].
  apply Z.log2_unique.
  - destruct (Z_lt_le_dec (L - 1) 0) as [Hneg|]; [|assumption].
    assert (L <= 0) by lia.
    assert (2 ^ L <= 1).
    { destruct (Z.eq_dec L 0) as [->|]; [reflexivity|].
      rewrite Z.pow_neg_r by lia. lia. }
    lia.
  - now replace (Z.succ (L - 1)) with L by lia.
Qed.

Lemma lxor_keeps_top_bit (x y k : Z) :
  0 <= x < 2 ^ k -> 2 ^ k <= y < 2 ^ (k + 1) ->
  2 ^ k <= Z.lxor x y < 2 ^ (k + 1).
Proof.
  intros Hx Hy.
  assert (0 <= k) as Hk.
  { destruct (Z_lt_le_dec k 0) as [Hneg|]; [|assumption].
    rewrite Z.pow_neg_r in Hx by assumption. lia. }
  assert (2 ^ k < 2 ^ (k + 1)) by (apply Z.pow_lt_mono_r; lia).
  assert (0 <= Z.lxor x y < 2 ^ (k + 1)) as Hup
    by (apply lxor_below_pow2; lia).
  split; [|apply Hup].
  destruct (Z_lt_le_dec (Z.lxor x y) (2 ^ k)) as [Hlow|]; [|assumption].
  assert (0 <= Z.lxor x (Z.lxor x y) < 2 ^ k) as Hback
    by (apply lxor_below_pow2; lia).
  rewrite <- Z.lxor_assoc, Z.lxor_nilpotent, Z.lxor_0_l in Hback. lia.
Qed.

Lemma bit_count_double (n : Z) : 0 < n -> bit_count (2 * n) = bit_count n + 1.
Proof.
  intros Hn. destruct n as [|p|p]; try lia.
  change (2 * Z.pos p) with (Z.pos p~0).
  rewrite !bit_count_pos. cbn [Pos.size]. lia.
Qed.

(** The degrees of the factors add up. *)
Lemma bit_count_clmul_pos (a : Z) (b : positive) :
  0 < a ->
  0 < clmul_pos a b
  /\ bit_count (clmul_pos a b) = bit_count a + bit_count (Z.pos b) - 1.
Proof.
  intros Ha. induction b as [b [IHpos IH]|b [IHpos IH]|]; cbn [clmul_pos].
  - assert (bit_count (Z.pos b~1) = bit_count (Z.pos b) + 1) as ->
        by (rewrite !bit_count_pos; cbn [Pos.size]; lia).
    pose proof (bit_count_positive (Z.pos b) ltac:(lia)) as Hb1.
    set (c := clmul_pos a b) in *.
    set (k := bit_count c) in *.
    assert (2 ^ k <= 2 * c < 2 ^ (k + 1)) as H2c.
    { pose proof (bit_count_lower c IHpos). pose proof (bit_count_upper c ltac:(lia)).
      fold k in H, H0.
      replace k with (k - 1 + 1) at 1 by lia.
      rewrite !Z.pow_add_r by (unfold k; pose proof (bit_count_positive c); lia).
      lia. }
    assert (0 <= a < 2 ^ k) as Hak.
    { split; [lia|]. eapply Z.lt_le_trans; [apply bit_count_upper; lia|].
      apply Z.pow_le_mono_r; lia. }
    pose proof (lxor_keeps_top_bit a (2 * c) k Hak H2c) as Hx.
    assert (0 < 2 ^ k) by (apply Z.pow_pos_nonneg; unfold k;
                           pose proof (bit_count_positive c); lia).
    split; [lia|].
    rewrite (bit_count_unique _ (k + 1)); [lia | lia|].
    now replace (k + 1 - 1) with k by lia.
  - assert (bit_count (Z.pos b~0) = bit_count (Z.pos b) + 1) as ->
        by (rewrite !bit_count_pos; cbn [Pos.size]; lia).
    split; [lia|]. rewrite bit_count_double by assumption. lia.
  - split; [assumption|]. change (bit_count 1) with 1. lia.
Qed.

Lemma bit_count_clmul (a b : Z) :
  0 < a -> 0 < b ->
  0 < clmul a b /\ bit_count (clmul a b) = bit_count a + bit_count b - 1.
Proof.
  intros Ha Hb. destruct b as [|b|b]; try lia.
  cbn [clmul]. now apply bit_count_clmul_pos.
Qed.

(** ** [GFNumber]: construction and addition *)

Lemma gf_of_wf (n : Z) : 0 <= n -> wf_gf (gf_of n).
Proof. intros Hn. split; [split; [exact Hn | reflexivity] | reflexivity]. Qed.

Lemma wf_gf_eq (x : GFNumber) :
  wf_gf x ->
  x = mkGFNumber (__class__ x)
        (mkBitNumber (GFNumber.__int__ x) (bit_count (GFNumber.__int__ x)))
        (bit_count (GFNumber.__int__ x)).
Proof.
  destruct x as [c [n l] l']; unfold wf_gf, wf_bit, GFNumber.__int__, BitNumber.__int__.
  cbn. intros [[_ ->] ->]. reflexivity.
Qed.

Lemma GFNumber_init_gf_of (n : Z) :
  0 <= n -> GFNumber.__init__ cls_GFNumber (VInt n) = Ok (gf_of n).
Proof. apply GFNumber_init_int. Qed.

Lemma GFNumber_init_copy_wf (cls : gf_class) (x : GFNumber) :
  wf_gf x ->
  GFNumber.__init__ cls (VGF x) = GFNumber.__init__ cls (VInt (GFNumber.__int__ x)).
Proof.
  intros Hwf. rewrite GFNumber_init_copy, GFNumber_init_int by apply Hwf.
  rewrite (wf_gf_eq x Hwf) at 1 2. reflexivity.
Qed.

(** X7: [GFNumber(n)], [GFNumber(BitNumber(n))] and [GFNumber(GFNumber(n))]
    are one and the same object for a non-negative [n], whatever the class
    of the inner field number; a negative integer is a [ValueError], an
    argument of another type a [TypeError]. *)
Theorem GFNumber_init_routes (cls : gf_class) (n : Z) :
  (0 <= n ->
   GFNumber.__init__ cls (VInt n)
   = Ok (mkGFNumber cls (mkBitNumber n (bit_count n)) (bit_count n))
   /\ (b <- BitNumber.__init__ (VInt n) ;; GFNumber.__init__ cls (VBit b))
      = GFNumber.__init__ cls (VInt n)
   /\ forall cls' : gf_class,
        (g <- GFNumber.__init__ cls' (VInt n) ;; GFNumber.__init__ cls (VGF g))
        = GFNumber.__init__ cls (VInt n))
  /\ (n < 0 -> GFNumber.__init__ cls (VInt n) = Raise InvalidArgument)
  /\ GFNumber.__init__ cls VOther = Raise (TypeError "number").
Proof.
  split; [|split; [apply GFNumber_init_negative | reflexivity]].
  intros Hn. rewrite !GFNumber_init_int by assumption.
  split; [reflexivity|]. split.
  - rewrite BitNumber_init_int by assumption. reflexivity.
  - intros cls'. rewrite GFNumber_init_int by assumption. reflexivity.
Qed.

Lemma GFNumber_init_routes_witness :
  GFNumber.__init__ cls_GFNumber (VInt 175)
  = Ok (mkGFNumber cls_GFNumber (mkBitNumber 175 (bit_count 175)) (bit_count 175))
  /\ GFNumber.__init__ cls_GFNumber (VInt (-175)) = Raise InvalidArgument.
Proof.
  split.
  - apply (proj1 (GFNumber_init_routes cls_GFNumber 175)). lia.
  - apply (proj1 (proj2 (GFNumber_init_routes cls_GFNumber (-175)))). lia.
Defined.

Lemma GFNumber_add_objects (x y : GFNumber) :
  wf_gf x -> wf_gf y ->
  GFNumber.__add__ x (VGF y)
  = Ok (gf_of (Z.lxor (GFNumber.__int__ x) (GFNumber.__int__ y))).
Proof.
  intros Hx Hy. rewrite GFNumber_add_nonneg by (apply Hx || apply Hy).
  apply GFNumber_init_gf_of, Z.lxor_nonneg. split; intros _; apply Hx || apply Hy.
Qed.

(** X8: on well-formed field numbers addition is commutative and
    associative, [GFNumber(0)] is neutral, and the second operand may as
    well be handed over as its integer or as its bit vector. *)
Theorem GFNumber_add_algebra (x y z : GFNumber) :
  wf_gf x -> wf_gf y -> wf_gf z ->
  GFNumber.__add__ x (VGF y) = GFNumber.__add__ y (VGF x)
  /\ (r <- GFNumber.__add__ x (VGF y) ;; GFNumber.__add__ r (VGF z))
     = (r <- GFNumber.__add__ y (VGF z) ;; GFNumber.__add__ x (VGF r))
  /\ (zero <- GFNumber.__init__ cls_GFNumber (VInt 0) ;;
      GFNumber.__add__ x (VGF zero))
     = GFNumber.__init__ cls_GFNumber (VGF x)
  /\ GFNumber.__add__ x (VInt (GFNumber.__int__ y)) = GFNumber.__add__ x (VGF y)
  /\ GFNumber.__add__ x (VBit (_number y)) = GFNumber.__add__ x (VGF y).
Proof.
  intros Hx Hy Hz.
  assert (0 <= GFNumber.__int__ x) as Hxn by apply Hx.
  assert (0 <= GFNumber.__int__ y) as Hyn by apply Hy.
  assert (0 <= GFNumber.__int__ z) as Hzn by apply Hz.
  assert (forall a b, 0 <= a -> 0 <= b -> 0 <= Z.lxor a b) as Hl
    by (intros; now apply Z.lxor_nonneg).
  assert (GFNumber.__add__ x (VInt (GFNumber.__int__ y))
          = GFNumber.__add__ x (VGF y)) as Hint.
  { unfold GFNumber.__add__.
    now rewrite (GFNumber_init_copy_wf cls_GFNumber y Hy). }
  assert (GFNumber.__add__ x (VBit (_number y)) = GFNumber.__add__ x (VGF y))
    as Hbit.
  { unfold GFNumber.__add__.
    now rewrite GFNumber_init_copy, GFNumber_init_bit. }
  rewrite Hint, Hbit.
  rewrite !GFNumber_add_objects by assumption.
  split; [now rewrite Z.lxor_comm|]. cbn [bind].
  rewrite !GFNumber_add_objects by (try assumption; apply gf_of_wf; auto).
  split; [cbn; now rewrite Z.lxor_assoc|].
  split; [|split; reflexivity].
  rewrite GFNumber_init_gf_of by lia. cbn [bind].
  rewrite GFNumber_add_objects by (try assumption; apply gf_of_wf; lia).
  rewrite (GFNumber_init_copy_wf cls_GFNumber x Hx).
  rewrite GFNumber_init_gf_of by assumption.
  cbn. now rewrite Z.lxor_0_r.
Qed.

Lemma GFNumber_add_algebra_witness :
  GFNumber.__add__ (gf_of 175) (VGF (gf_of 3))
  = GFNumber.__add__ (gf_of 3) (VGF (gf_of 175))
  /\ (r <- GFNumber.__add__ (gf_of 175) (VGF (gf_of 3)) ;;
      GFNumber.__add__ r (VGF (gf_of 9)))
     = (r <- GFNumber.__add__ (gf_of 3) (VGF (gf_of 9)) ;;
        GFNumber.__add__ (gf_of 175) (VGF r)).
Proof.
  destruct (GFNumber_add_algebra (gf_of 175) (gf_of 3) (gf_of 9)) as (H1 & H2 & _);
    try (apply gf_of_wf; lia).
  split; [exact H1 | exact H2].
Defined.

(** ** [GFNumber]: multiplication *)

Lemma GFNumber_mul_objects (x y : GFNumber) :
  wf_gf x -> wf_gf y ->
  GFNumber.__mul__ x (VGF y)
  = Ok (gf_of (clmul (GFNumber.__int__ x) (GFNumber.__int__ y))).
Proof.
  intros Hx Hy. rewrite GFNumber_mul_object by apply Hx || apply Hy.
  apply GFNumber_init_gf_of, clmul_nonneg, Hx.
Qed.

Lemma gf_of_int (n : Z) : GFNumber.__int__ (gf_of n) = n.
Proof. reflexivity. Qed.

(** X9: [GFNumber(1)] is neutral for the multiplication and [GFNumber(0)]
    absorbs, on either side. *)
Theorem GFNumber_mul_one_and_zero (a : Z) :
  0 <= a ->
  GF_product a 1 = GFNumber.__init__ cls_GFNumber (VInt a)
  /\ GF_product 1 a = GFNumber.__init__ cls_GFNumber (VInt a)
  /\ GF_product a 0 = GFNumber.__init__ cls_GFNumber (VInt 0)
  /\ GF_product 0 a = GFNumber.__init__ cls_GFNumber (VInt 0).
Proof.
  intros Ha. rewrite !GF_product_nonneg by lia.
  rewrite (clmul_comm 1 a), (clmul_comm 0 a) by lia.
  repeat split.
Qed.

Lemma GFNumber_mul_one_witness :
  GF_product 175 1 = GFNumber.__init__ cls_GFNumber (VInt 175)
  /\ GF_product 1 175 = GFNumber.__init__ cls_GFNumber (VInt 175)
  /\ GF_product 175 0 = GFNumber.__init__ cls_GFNumber (VInt 0)
  /\ GF_product 0 175 = GFNumber.__init__ cls_GFNumber (VInt 0).
Proof. apply (GFNumber_mul_one_and_zero 175); lia. Defined.

(** X10: multiplication distributes over addition, on the right and on the
    left. *)
Theorem GFNumber_mul_distributes (x y z : GFNumber) :
  wf_gf x -> wf_gf y -> wf_gf z ->
  (s <- GFNumber.__add__ y (VGF z) ;; GFNumber.__mul__ x (VGF s))
  = (p <- GFNumber.__mul__ x (VGF y) ;;
     q <- GFNumber.__mul__ x (VGF z) ;;
     GFNumber.__add__ p (VGF q))
  /\ (s <- GFNumber.__add__ y (VGF z) ;; GFNumber.__mul__ s (VGF x))
     = (p <- GFNumber.__mul__ y (VGF x) ;;
        q <- GFNumber.__mul__ z (VGF x) ;;
        GFNumber.__add__ p (VGF q)).
Proof.
  intros Hx Hy Hz.
  assert (0 <= GFNumber.__int__ x) as Hxn by apply Hx.
  assert (0 <= GFNumber.__int__ y) as Hyn by apply Hy.
  assert (0 <= GFNumber.__int__ z) as Hzn by apply Hz.
  rewrite !GFNumber_add_objects, !GFNumber_mul_objects by assumption.
  cbn [bind].
  assert (0 <= Z.lxor (GFNumber.__int__ y) (GFNumber.__int__ z))
    by now apply Z.lxor_nonneg.
  rewrite !GFNumber_mul_objects, !GFNumber_add_objects
    by (try assumption; apply gf_of_wf; try assumption;
        apply clmul_nonneg; assumption).
  rewrite !gf_of_int. rewrite clmul_lxor_r, clmul_lxor_l by assumption.
  split; reflexivity.
Qed.

Lemma GFNumber_mul_distributes_witness :
  (s <- GFNumber.__add__ (gf_of 3) (VGF (gf_of 9)) ;;
   GFNumber.__mul__ (gf_of 175) (VGF s))
  = (p <- GFNumber.__mul__ (gf_of 175) (VGF (gf_of 3)) ;;
     q <- GFNumber.__mul__ (gf_of 175) (VGF (gf_of 9)) ;;
     GFNumber.__add__ p (VGF q)).
Proof.
  apply (proj1 (GFNumber_mul_distributes (gf_of 175) (gf_of 3) (gf_of 9)
                  (gf_of_wf 175 ltac:(lia)) (gf_of_wf 3 ltac:(lia))
                  (gf_of_wf 9 ltac:(lia)))).
Defined.

(** X11: multiplication is associative. *)
Theorem GFNumber_mul_associative (x y z : GFNumber) :
  wf_gf x -> wf_gf y -> wf_gf z ->
  (p <- GFNumber.__mul__ x (VGF y) ;; GFNumber.__mul__ p (VGF z))
  = (q <- GFNumber.__mul__ y (VGF z) ;; GFNumber.__mul__ x (VGF q)).
Proof.
  intros Hx Hy Hz.
  assert (0 <= GFNumber.__int__ x) as Hxn by apply Hx.
  assert (0 <= GFNumber.__int__ y) as Hyn by apply Hy.
  assert (0 <= GFNumber.__int__ z) as Hzn by apply Hz.
  rewrite !GFNumber_mul_objects by assumption. cbn [bind].
  rewrite !GFNumber_mul_objects
    by (try assumption; apply gf_of_wf; apply clmul_nonneg; assumption).
  rewrite !gf_of_int. now rewrite clmul_assoc by assumption.
Qed.

Lemma GFNumber_mul_associative_witness :
  (p <- GFNumber.__mul__ (gf_of 175) (VGF (gf_of 3)) ;;
   GFNumber.__mul__ p (VGF (gf_of 9)))
  = (q <- GFNumber.__mul__ (gf_of 3) (VGF (gf_of 9)) ;;
     GFNumber.__mul__ (gf_of 175) (VGF q)).
Proof.
  apply (GFNumber_mul_associative (gf_of 175) (gf_of 3) (gf_of 9));
    apply gf_of_wf; lia.
Defined.

(** X12: the product of two non-zero field numbers is not zero, and its
    length is the sum of the lengths of the factors less one (the degrees
    add up: nothing is reduced). *)
Theorem GFNumber_mul_length (x y : GFNumber) :
  wf_gf x -> wf_gf y ->
  0 < GFNumber.__int__ x -> 0 < GFNumber.__int__ y ->
  exists p : GFNumber,
    GFNumber.__mul__ x (VGF y) = Ok p
    /\ 0 < GFNumber.__int__ p
    /\ GFNumber.__len__ p = GFNumber.__len__ x + GFNumber.__len__ y - 1.
Proof.
  intros Hx Hy Hxp Hyp.
  exists (gf_of (clmul (GFNumber.__int__ x) (GFNumber.__int__ y))).
  split; [now apply GFNumber_mul_objects|].
  destruct (bit_count_clmul _ _ Hxp Hyp) as [Hpos Hlen].
  split; [exact Hpos|].
  destruct Hx as [[_ Hx1] Hx2], Hy as [[_ Hy1] Hy2].
  unfold GFNumber.__len__, gf_of, GFNumber.__int__, BitNumber.__int__ in *.
  cbn [_len]. lia.
Qed.

Lemma GFNumber_mul_length_witness :
  exists p : GFNumber,
    GFNumber.__mul__ (gf_of 175) (VGF (gf_of 3)) = Ok p
    /\ 0 < GFNumber.__int__ p
    /\ GFNumber.__len__ p
       = GFNumber.__len__ (gf_of 175) + GFNumber.__len__ (gf_of 3) - 1.
Proof.
  apply (GFNumber_mul_length (gf_of 175) (gf_of 3));
    try (apply gf_of_wf; lia); reflexivity.
Defined.

Lemma shrink_body_class (self self' : GFNumber) (i : Z) :
  GF8Number.shrink_body self i = Ok self' -> __class__ self' = __class__ self.
Proof.
  unfold GF8Number.shrink_body.
  destruct (GFNumber.__getitem__ self i) as [bit|]; [|discriminate].
  cbn [bind]. destruct (truthy bit); [|intros H; injection H as <-; reflexivity].
  destruct (BitNumber.__lshift__ _ _) as [shifted|]; [|discriminate].
  cbn [bind]. destruct (BitNumber.__xor__ _ _) as [b|]; [|discriminate].
  cbn [bind]. intros H; injection H as <-. reflexivity.
Qed.

Lemma shrink_loop_class (l : list Z) :
  forall self self' : GFNumber,
    for_each GF8Number.shrink_body (items l) self = Ok self' ->
    __class__ self' = __class__ self.
Proof.
  induction l as [|i l IH]; intros self self' H; cbn [items map for_each bind] in H.
  - injection H as <-. reflexivity.
  - destruct (GF8Number.shrink_body self i) as [self1|] eqn:H1; [|discriminate].
    cbn [bind] in H. rewrite (IH _ _ H). now apply shrink_body_class in H1.
Qed.

Lemma shrink_class (self self' : GFNumber) (shrunk : bool) :
  GF8Number.__shrink self = Ok (shrunk, self') -> __class__ self' = __class__ self.
Proof.
  unfold GF8Number.__shrink.
  destruct (_ <=? _); [intros H; injection H as _ <-; reflexivity|].
  destruct (for_each _ _ self) as [self1|] eqn:Hloop; [|discriminate].
  cbn [bind]. intros H; injection H as _ <-. cbn [__class__].
  now apply shrink_loop_class in Hloop.
Qed.

Lemma GFNumber_init_class (cls : gf_class) (number : value) (self : GFNumber) :
  GFNumber.__init__ cls number = Ok self -> __class__ self = cls.
Proof.
  destruct number as [n|b|g|]; [| | |discriminate].
  - destruct (Z_lt_le_dec n 0) as [Hneg|Hpos].
    + now rewrite GFNumber_init_negative by assumption.
    + rewrite GFNumber_init_int by assumption. intros H; injection H as <-. reflexivity.
  - rewrite GFNumber_init_bit. intros H; injection H as <-. reflexivity.
  - rewrite GFNumber_init_copy. intros H; injection H as <-. reflexivity.
Qed.

Lemma GF8Number_init_class (number : value) (assert_shrunk : bool)
  (self : GFNumber) :
  GF8Number.__init__ number assert_shrunk = Ok self ->
  __class__ self = cls_GF8Number.
Proof.
  unfold GF8Number.__init__.
  destruct (GFNumber.__init__ cls_GF8Number number) as [self0|] eqn:H0;
    [|discriminate].
  cbn [bind].
  destruct (GF8Number.__shrink self0) as [[shrunk self1]|] eqn:H1;
    [|discriminate].
  cbn [bind]. destruct (if assert_shrunk then _ else _); [|discriminate].
  cbn [bind]. intros H; injection H as <-.
  apply shrink_class in H1. apply GFNumber_init_class in H0. congruence.
Qed.

Lemma GF8Number_mul_class (self : GFNumber) (other : value) (r : GFNumber) :
  GF8Number.__mul__ self other = Ok r -> __class__ r = cls_GF8Number.
Proof.
  unfold GF8Number.__mul__.
  destruct (GF8Number.__init__ other true) as [other'|]; [|discriminate].
  cbn [bind].
  destruct (GFNumber.__mul__ self (VGF other')) as [product|]; [|discriminate].
  cbn [bind].
  destruct (GF8Number.__init__ (VGF product) false) as [result|] eqn:Hres;
    [|discriminate].
  cbn [bind].
  destruct (GF8Number.__shrink result) as [[shrunk r']|] eqn:Hs; [|discriminate].
  cbn [bind snd]. intros H; injection H as <-.
  apply shrink_class in Hs. apply GF8Number_init_class in Hres. congruence.
Qed.

(** X13: [b * GF8Number(a)] goes through the inherited [__rmul__], which is
    [GFNumber.__mul__]: it is the unreduced product [GFNumber(a) * b], a
    plain [GFNumber], and never what [GF8Number(a) * b] returns. *)
Theorem GF8Number_reflected_product_is_plain (a b : Z) :
  0 <= a < 256 -> 0 <= b ->
  GF8_reflected_product b a = GF_product a b
  /\ GF8_reflected_product b a = Ok (gf_of (clmul a b))
  /\ forall r : GFNumber,
       GF8_product a b = Ok r -> GF8_reflected_product b a <> Ok r.
Proof.
  intros Ha Hb.
  assert (GF8_reflected_product b a = Ok (gf_of (clmul a b))) as Hr.
  { unfold GF8_reflected_product, GFNumber.__rmul__.
    rewrite GF8Number_init_small by (try lia; apply bit_count_le; lia).
    cbn [bind]. rewrite GFNumber_mul_int by (cbn; lia).
    apply GFNumber_init_gf_of, clmul_nonneg. lia. }
  split; [|split; [exact Hr|]].
  - rewrite Hr, GF_product_nonneg by lia.
    symmetry. apply GFNumber_init_gf_of, clmul_nonneg. lia.
  - intros r Hprod Heq. rewrite Hr in Heq. injection Heq as <-.
    unfold GF8_product in Hprod.
    destruct (GF8Number.__init__ (VInt a) false) as [self|]; [|discriminate].
    cbn [bind] in Hprod. apply GF8Number_mul_class in Hprod. discriminate Hprod.
Qed.

Lemma GF8Number_reflected_product_witness :
  GF8_reflected_product 3 175 = GF_product 175 3
  /\ GF8_reflected_product 3 175 = Ok (gf_of (clmul 175 3))
  /\ forall r : GFNumber,
       GF8_product 175 3 = Ok r -> GF8_reflected_product 3 175 <> Ok r.
Proof. apply (GF8Number_reflected_product_is_plain 175 3); lia. Defined.

(** ** Operands of any accepted form *)






(** ** [GF8Number]: what construction returns *)

Lemma wf_gf_rebuild (g : GFNumber) :
  wf_gf g ->
  mkGFNumber (__class__ g) (_number g) (__len (_number g)) = g.
Proof. destruct g as [c b l]; intros [_ Hl]; cbn in *. now rewrite Hl. Qed.

(** X15: a [GF8Number] that construction has returned is accepted as it
    is when it is passed to the constructor again, also under
    [assert_shrunk=True], and [__shrink] finds nothing to do on it. *)
Theorem GF8Number_init_idempotent (number : value) (assert_shrunk : bool)
  (g : GFNumber) :
  wf_value number ->
  GF8Number.__init__ number assert_shrunk = Ok g ->
  GF8Number.__init__ (VGF g) true = Ok g
  /\ GF8Number.__init__ (VGF g) false = Ok g
  /\ GF8Number.__shrink g = Ok (false, g).
Proof.
  intros Hv Hinit.
  destruct (GF8Number_init_wf _ _ _ Hv Hinit) as (Hwf & Hlen & Hcls).
  assert (GF8Number.__shrink g = Ok (false, g)) as Hs
    by (apply shrink_short; exact Hlen).
  assert (forall s, GF8Number.__init__ (VGF g) s = Ok g) as Hre.
  { intros s. unfold GF8Number.__init__.
    rewrite GFNumber_init_copy, <- Hcls, (wf_gf_rebuild g Hwf). cbn [bind].
    rewrite Hs. destruct s; reflexivity. }
  split; [apply Hre|]. split; [apply Hre | exact Hs].
Qed.

Lemma GF8Number_init_idempotent_witness :
  GF8Number.__init__ (VGF (gf8_of 55)) true = Ok (gf8_of 55)
  /\ GF8Number.__init__ (VGF (gf8_of 55)) false = Ok (gf8_of 55)
  /\ GF8Number.__shrink (gf8_of 55) = Ok (false, gf8_of 55).
Proof.
  apply (GF8Number_init_idempotent (VInt 300) false (gf8_of 55) I).
  reflexivity.
Defined.

Lemma shrink_nine_bits (self : GFNumber) :
  wf_gf self -> GFNumber.__len__ self = 9 ->
  GF8Number.__shrink self
  = Ok (true,
        mkGFNumber (__class__ self)
          (mkBitNumber (Z.lxor (GFNumber.__int__ self) 283)
             (bit_count (Z.lxor (GFNumber.__int__ self) 283)))
          (bit_count (Z.lxor (GFNumber.__int__ self) 283)))
  /\ 0 <= Z.lxor (GFNumber.__int__ self) 283 < 256.
Proof.
  intros [[Hnn Hlen] Hl] H9.
  unfold GFNumber.__len__, GFNumber.__int__, BitNumber.__int__ in *.
  assert (bit_count (__number (_number self)) = 9) as Hbc by congruence.
  assert (0 < __number (_number self)) as Hpos.
  { destruct (Z.eq_dec (__number (_number self)) 0) as [E|]; [|lia].
    rewrite E in Hbc. discriminate Hbc. }
  assert (Z.testbit (__number (_number self)) 8 = true) as Hbit.
  { rewrite bit_count_log2 in Hbc by assumption.
    replace 8 with (Z.log2 (__number (_number self))) by lia.
    now apply Z.bit_log2. }
  assert (__number (_number self) < 2 ^ 9) as Hup
    by (rewrite <- Hbc; now apply bit_count_upper).
  assert (0 <= Z.lxor (__number (_number self)) 283 < 2 ^ 9) as Hx
    by (apply lxor_below_pow2; [lia | change (2 ^ 9) with 512; lia]).
  split.
  - unfold GF8Number.__shrink, GFNumber.__len__, GF8Number.MAX_BITS.
    rewrite H9. cbn [Z.leb Z.compare Pos.compare Pos.compare_cont].
    change (range_down (9 - 1) (8 - 1)) with [8].
    cbn [items map for_each]. cbn [bind].
    unfold GF8Number.shrink_body, GFNumber.__getitem__.
    rewrite getitem_in_bounds by lia. cbn [bind].
    rewrite Hbit. cbn [Z.b2z truthy Z.eqb negb].
    unfold GF8Number.MAX_BITS.
    rewrite BitNumber_lshift_nonneg by (cbn; lia). cbn [bind].
    rewrite BitNumber_xor_nonneg by (cbn; lia). cbn [bind].
    reflexivity.
  - split; [lia|]. apply (top_bit_clear _ 8); [lia | exact Hx |].
    rewrite Z.lxor_spec, Hbit. reflexivity.
Qed.

(** X16: for an integer below 512 construction never fails: below 256 the
    integer is kept, and from 256 on it is replaced by its XOR with the
    modulus [0b100011011], which is below 256. *)
Theorem GF8Number_init_below_512 (n : Z) :
  0 <= n < 512 ->
  GF8Number.__init__ (VInt n) false
  = Ok (gf8_of (if n <? 256 then n else Z.lxor n 283))
  /\ 0 <= (if n <? 256 then n else Z.lxor n 283) < 256.
Proof.
  intros Hn. destruct (n <? 256) eqn:E.
  - apply Z.ltb_lt in E. split; [|lia].
    apply GF8Number_init_small; [lia | apply bit_count_le; lia].
  - apply Z.ltb_ge in E.
    assert (bit_count n = 9) as Hbc
      by (apply bit_count_unique; [lia | split; [exact E | apply Hn]]).
    destruct (shrink_nine_bits (gf8_of n)) as [Hs Hlt];
      [apply (conj (conj (proj1 Hn) eq_refl) eq_refl) | exact Hbc |].
    split; [|exact Hlt].
    unfold GF8Number.__init__.
    rewrite GFNumber_init_int by lia. cbn [bind]. fold (gf8_of n).
    rewrite Hs. reflexivity.
Qed.

Lemma GF8Number_init_below_512_witness :
  GF8Number.__init__ (VInt 300) false
  = Ok (gf8_of (if 300 <? 256 then 300 else Z.lxor 300 283))
  /\ 0 <= (if 300 <? 256 then 300 else Z.lxor 300 283) < 256.
Proof. apply (GF8Number_init_below_512 300); lia. Defined.

(** ** The reduction as a remainder *)

Lemma lxor_cancel_r (n r b : Z) : n = Z.lxor r b -> r = Z.lxor n b.
Proof.
  intros ->. now rewrite Z.lxor_assoc, Z.lxor_nilpotent, Z.lxor_0_r.
Qed.

Lemma shrink_body_multiple (self self' : GFNumber) (i : Z) :
  GF8Number.MAX_BITS <= i -> 0 <= GFNumber.__int__ self ->
  GF8Number.shrink_body self i = Ok self' ->
  exists d : Z,
    0 <= d
    /\ GFNumber.__int__ self' = Z.lxor (GFNumber.__int__ self) (clmul 283 d).
Proof.
  unfold GF8Number.MAX_BITS, GFNumber.__int__, BitNumber.__int__.
  intros Hi Hnn. unfold GF8Number.shrink_body.
  destruct (GFNumber.__getitem__ self i) as [bit|]; [|discriminate].
  cbn [bind]. destruct (truthy bit).
  - unfold GF8Number.MAX_BITS.
    rewrite BitNumber_lshift_nonneg by (cbn; lia). cbn [bind].
    pose proof (shifted_modulo_bound i Hi) as Hm.
    rewrite BitNumber_xor_nonneg by (cbn [__number GF8Number.SHRINK_MODULO]; lia).
    cbn [bind __number GF8Number.SHRINK_MODULO].
    intros H; injection H as <-. cbn [_number __number].
    exists (2 ^ (i - 8)). split; [apply Z.pow_nonneg; lia|].
    rewrite <- (Z2Nat.id (i - 8)) by lia. now rewrite clmul_pow2_r.
  - intros H; injection H as <-. exists 0. split; [lia|].
    now rewrite clmul_0_r, Z.lxor_0_r.
Qed.

Lemma shrink_loop_multiple (l : list Z) :
  forall self self' : GFNumber,
    Forall (fun i => GF8Number.MAX_BITS <= i) l ->
    0 <= GFNumber.__int__ self ->
    for_each GF8Number.shrink_body (items l) self = Ok self' ->
    exists q : Z,
      0 <= q
      /\ GFNumber.__int__ self' = Z.lxor (GFNumber.__int__ self) (clmul 283 q).
Proof.
  induction l as [|i l IH]; intros self self' Hl Hnn H;
    cbn [items map for_each bind] in H.
  - injection H as <-. exists 0. split; [lia|].
    now rewrite clmul_0_r, Z.lxor_0_r.
  - inversion Hl as [|? ? Hi Hrest]; subst.
    destruct (GF8Number.shrink_body self i) as [self1|] eqn:H1; [|discriminate].
    cbn [bind] in H.
    destruct (shrink_body_multiple _ _ _ Hi Hnn H1) as (d & Hd & E1).
    assert (0 <= GFNumber.__int__ self1) as Hnn1.
    { rewrite E1. apply Z.lxor_nonneg. split; intros _; [|assumption].
      apply clmul_nonneg; lia. }
    destruct (IH _ _ Hrest Hnn1 H) as (q & Hq & E).
    exists (Z.lxor d q). split; [now apply Z.lxor_nonneg|].
    rewrite E, E1, clmul_lxor_r by lia. now rewrite Z.lxor_assoc.
Qed.

Lemma scan_positions_above (start : Z) :
  Forall (fun i => GF8Number.MAX_BITS <= i)
    (range_down start (GF8Number.MAX_BITS - 1)).
Proof.
  apply Forall_forall. intros i Hi. apply range_down_In in Hi. lia.
Qed.

Lemma shrink_residue (self self' : GFNumber) (shrunk : bool) :
  wf_gf self -> GF8Number.__shrink self = Ok (shrunk, self') ->
  residue (GFNumber.__int__ self) (GFNumber.__int__ self').
Proof.
  intros Hwf H.
  destruct (shrink_ok _ _ _ Hwf H) as ([[Hnn' Hl'] Hg'] & Hlen' & _).
  unfold GFNumber.__len__, GF8Number.MAX_BITS, GFNumber.__int__,
    BitNumber.__int__ in *.
  split.
  { split; [assumption|].
    apply (bit_count_le _ 8); [assumption | lia | congruence]. }
  unfold GF8Number.__shrink in H.
  destruct (_ <=? _) in H.
  - injection H as _ <-. exists 0. split; [lia|].
    now rewrite clmul_0_r, Z.lxor_0_r.
  - destruct (for_each _ _ self) as [self1|] eqn:Hloop; [|discriminate].
    cbn [bind] in H. injection H as _ <-. cbn [_number] in *.
    destruct (shrink_loop_multiple _ _ _
                (scan_positions_above _) (proj1 (proj1 Hwf)) Hloop)
      as (q & Hq & E).
    exists q. split; [assumption|].
    unfold GFNumber.__int__, BitNumber.__int__ in E. rewrite E.
    now rewrite Z.lxor_assoc, Z.lxor_nilpotent, Z.lxor_0_r.
Qed.

Lemma residue_unique (n r r' : Z) : residue n r -> residue n r' -> r = r'.
Proof.
  intros [Hr (q & Hq & E)] [Hr' (q' & Hq' & E')].
  assert (Z.lxor r r' = clmul 283 (Z.lxor q q')) as Hd.
  { rewrite clmul_lxor_r by lia.
    rewrite (lxor_cancel_r _ _ _ E'), E.
    rewrite !Z.lxor_assoc, <- (Z.lxor_assoc r r), Z.lxor_nilpotent, Z.lxor_0_l.
    reflexivity. }
  assert (0 <= Z.lxor q q') as HQ by now apply Z.lxor_nonneg.
  destruct (Z.eq_dec (Z.lxor q q') 0) as [E0|Hnz].
  - rewrite E0, clmul_0_r in Hd. now apply Z.lxor_eq.
  - exfalso.
    destruct (bit_count_clmul 283 (Z.lxor q q')) as [Hpos Hbc]; [lia|lia|].
    pose proof (bit_count_positive (Z.lxor q q') HQ) as H1.
    pose proof (bit_count_lower _ Hpos) as Hlow.
    change (bit_count 283) with 9 in Hbc.
    assert (2 ^ 8 <= 2 ^ (bit_count (clmul 283 (Z.lxor q q')) - 1))
      by (apply Z.pow_le_mono_r; lia).
    pose proof (lxor_below_pow2 r r' 8 Hr Hr') as Hsmall.
    rewrite Hd in Hsmall. lia.
Qed.

Lemma GF8_product_value (a b : Z) (r : GFNumber) :
  0 <= a < 256 -> 0 <= b < 256 -> GF8_product a b = Ok r ->
  residue (clmul a b) (GFNumber.__int__ r).
Proof.
  intros Ha Hb H. rewrite GF8_product_small in H by assumption.
  assert (0 <= clmul a b) as Hc by (apply clmul_nonneg; lia).
  rewrite GFNumber_init_int in H by assumption. cbn [bind] in H.
  destruct (GF8Number.__init__ _ false) as [result|] eqn:Hres; [|discriminate].
  cbn [bind] in H.
  assert (wf_value (VGF (gf_of (clmul a b)))) as Hv
    by (split; [exact Hc | reflexivity]).
  destruct (GF8Number_init_wf _ _ _ Hv Hres) as (Hwf & Hlen & _).
  rewrite shrink_short in H by exact Hlen. cbn [bind snd] in H.
  injection H as <-.
  unfold GF8Number.__init__ in Hres.
  rewrite GFNumber_init_copy in Hres. cbn [bind] in Hres.
  destruct (GF8Number.__shrink _) as [[shrunk self1]|] eqn:Hs in Hres;
    [|discriminate].
  cbn [bind] in Hres. injection Hres as <-.
  apply shrink_residue in Hs; [exact Hs|].
  split; [split; [exact Hc | reflexivity] | reflexivity].
Qed.

(** X17: what the reduction returns is the remainder modulo the polynomial
    [0b100011011]. If [GF8Number(n)] returns, its value is below 256 and
    differs from [n] by a carry-less multiple of the modulus, and it is the
    only such number; if [GF8Number(a) * b] returns for 8-bit operands, its
    value is in the same way the remainder of the carry-less product of
    [a] and [b]. *)
Theorem GF8_reduction_is_remainder :
  (forall (n : Z) (assert_shrunk : bool) (g : GFNumber),
      0 <= n ->
      GF8Number.__init__ (VInt n) assert_shrunk = Ok g ->
      residue n (GFNumber.__int__ g)
      /\ forall r : Z, residue n r -> r = GFNumber.__int__ g)
  /\ (forall (a b : Z) (p : GFNumber),
        0 <= a < 256 -> 0 <= b < 256 ->
        GF8_product a b = Ok p ->
        residue (clmul a b) (GFNumber.__int__ p)
        /\ forall r : Z, residue (clmul a b) r -> r = GFNumber.__int__ p).
Proof.
  split.
  - intros n s g Hn H.
    assert (residue n (GFNumber.__int__ g)) as Hres.
    { unfold GF8Number.__init__ in H.
      rewrite GFNumber_init_int in H by assumption. cbn [bind] in H.
      destruct (GF8Number.__shrink _) as [[shrunk self1]|] eqn:Hs in H;
        [|discriminate].
      cbn [bind] in H.
      destruct (if s then _ else _) in H; [|discriminate].
      cbn [bind] in H. injection H as <-.
      apply shrink_residue in Hs; [exact Hs|].
      split; [split; [exact Hn | reflexivity] | reflexivity]. }
    split; [exact Hres|]. intros r Hr. exact (residue_unique _ _ _ Hr Hres).
  - intros a b p Ha Hb H.
    pose proof (GF8_product_value a b p Ha Hb H) as Hres.
    split; [exact Hres|]. intros r Hr. exact (residue_unique _ _ _ Hr Hres).
Qed.

Lemma GF8_reduction_witness :
  residue (clmul 175 3) 234
  /\ forall r : Z, residue (clmul 175 3) r -> r = 234.
Proof.
  apply (proj2 GF8_reduction_is_remainder 175 3
           (mkGFNumber cls_GF8Number (mkBitNumber 234 8) 8));
    [lia | lia | reflexivity].
Defined.

(** ** Products that the scan can reduce *)

Lemma GF8_product_below_512 (a b : Z) :
  0 <= a < 256 -> 0 <= b < 256 -> clmul a b < 512 ->
  GF8_product a b
  = Ok (gf8_of (if clmul a b <? 256 then clmul a b else Z.lxor (clmul a b) 283)).
Proof.
  intros Ha Hb Hc. rewrite GF8_product_small by assumption.
  assert (0 <= clmul a b) as Hnn by (apply clmul_nonneg; lia).
  rewrite GFNumber_init_int by assumption. cbn [bind].
  unfold GF8Number.__init__ at 1. rewrite GFNumber_init_copy.
  cbn [bind _number __len]. fold (gf8_of (clmul a b)).
  destruct (clmul a b <? 256) eqn:E.
  - apply Z.ltb_lt in E.
    assert (GFNumber.__len__ (gf8_of (clmul a b)) <= GF8Number.MAX_BITS) as Hlen
      by (unfold GFNumber.__len__, gf8_of, GF8Number.MAX_BITS; cbn [_len];
          apply bit_count_le; [assumption | lia | exact E]).
    rewrite shrink_short by exact Hlen. cbn [bind].
    now rewrite shrink_short by exact Hlen.
  - apply Z.ltb_ge in E.
    assert (bit_count (clmul a b) = 9) as Hbc
      by (apply bit_count_unique; [lia | split; [exact E | exact Hc]]).
    destruct (shrink_nine_bits (gf8_of (clmul a b))) as [Hs Hlt];
      [apply (conj (conj Hnn eq_refl) eq_refl) | exact Hbc |].
    rewrite Hs. cbn [bind].
    rewrite shrink_short; [reflexivity|].
    unfold GFNumber.__len__, GF8Number.MAX_BITS; cbn [_len].
    apply bit_count_le; [apply Hlt | lia | apply Hlt].
Qed.

Lemma clmul_0_l (b : Z) : clmul 0 b = 0.
Proof. destruct b; cbn [clmul]; [reflexivity | apply clmul_pos_0_l | reflexivity]. Qed.

(** X18: when the lengths of two 8-bit operands add up to at most 10, the
    product is at most 9 bits long and [GF8Number(a) * b] does not raise:
    it is the carry-less product itself if that is below 256, and its XOR
    with the modulus otherwise. *)
Theorem GF8_product_of_short_operands (a b : Z) :
  0 <= a < 256 -> 0 <= b < 256 ->
  bit_count a + bit_count b <= 10 ->
  clmul a b < 512
  /\ GF8_product a b
     = Ok (gf8_of (if clmul a b <? 256 then clmul a b
                   else Z.lxor (clmul a b) 283)).
Proof.
  intros Ha Hb Hlen.
  assert (clmul a b < 512) as Hc.
  { destruct (Z.eq_dec a 0) as [->|Hza]; [rewrite clmul_0_l; lia|].
    destruct (Z.eq_dec b 0) as [->|Hzb]; [rewrite clmul_0_r; lia|].
    destruct (bit_count_clmul a b) as [Hpos Hbc]; [lia|lia|].
    change 512 with (2 ^ 9). apply bit_count_le; lia. }
  split; [exact Hc | now apply GF8_product_below_512].
Qed.

Lemma GF8_product_of_short_operands_witness :
  clmul 175 3 < 512
  /\ GF8_product 175 3
     = Ok (gf8_of (if clmul 175 3 <? 256 then clmul 175 3
                   else Z.lxor (clmul 175 3) 283)).
Proof.
  apply (GF8_product_of_short_operands 175 3); [lia | lia | vm_compute; discriminate].
Defined.

(** X19: in the 8-bit field [GF8Number(1)] is neutral for the
    multiplication and [GF8Number(0)] absorbs, on either side. *)
Theorem GF8Number_mul_one_and_zero (a : Z) :
  0 <= a < 256 ->
  GF8_product a 1 = GF8Number.__init__ (VInt a) false
  /\ GF8_product 1 a = GF8Number.__init__ (VInt a) false
  /\ GF8_product a 0 = GF8Number.__init__ (VInt 0) false
  /\ GF8_product 0 a = GF8Number.__init__ (VInt 0) false.
Proof.
  intros Ha.
  assert (bit_count a <= 8) as Hbc by (apply bit_count_le; lia).
  rewrite !GF8Number_init_small by (try lia; exact Hbc || (vm_compute; discriminate)).
  rewrite !GF8_product_below_512
    by (try lia; rewrite ?(clmul_comm 1 a) by lia;
        rewrite ?clmul_0_l, ?clmul_0_r, ?clmul_1_r; lia).
  rewrite (clmul_comm 1 a), clmul_0_l, clmul_0_r, clmul_1_r by lia.
  destruct (a <? 256) eqn:E; [|apply Z.ltb_ge in E; lia].
  repeat split.
Qed.

Lemma GF8Number_mul_one_witness :
  GF8_product 175 1 = GF8Number.__init__ (VInt 175) false
  /\ GF8_product 1 175 = GF8Number.__init__ (VInt 175) false
  /\ GF8_product 175 0 = GF8Number.__init__ (VInt 0) false
  /\ GF8_product 0 175 = GF8Number.__init__ (VInt 0) false.
Proof. apply (GF8Number_mul_one_and_zero 175); lia. Defined.

(** ** Texts of field numbers *)

Lemma term_not_empty (i : Z) : exists c rest, term i = String c rest.
Proof.
  unfold term. destruct (i =? 0); [now exists "1"%char, ""%string|].
  destruct (i =? 1); [now exists "x"%char, ""%string|].
  now exists "x"%char, (py_str i).
Qed.

Lemma concat_terms_head (i : Z) (rest : list Z) :
  exists tail : string,
    String.concat " + " (map term (i :: rest)) = (term i ++ tail)%string.
Proof.
  cbn [map String.concat]. destruct (map term rest) as [|t ts].
  - exists ""%string. now rewrite append_empty_r.
  - now exists (" + " ++ String.concat " + " (t :: ts))%string.
Qed.

Lemma set_bits_descending_head (n : Z) :
  0 < n ->
  exists rest : list Z, set_bits_descending n = Z.log2 n :: rest.
Proof.
  intros Hn. unfold set_bits_descending.
  pose proof (Z.log2_nonneg n).
  rewrite range_down_cons by lia. cbn [filter].
  rewrite Z.bit_log2 by assumption. eauto.
Qed.

(** X20: the polynomial text of a well-formed field number is empty
    exactly for the value 0; the text of any other value starts with the
    term of its highest bit, the one at [len(self) - 1]. *)
Theorem GFNumber_str_leading_term (self : GFNumber) :
  wf_gf self ->
  (GFNumber.__str__ self = Ok ""%string <-> GFNumber.__int__ self = 0)
  /\ (0 < GFNumber.__int__ self ->
      exists tail : string,
        GFNumber.__str__ self
        = Ok (term (GFNumber.__len__ self - 1) ++ tail)%string).
Proof.
  intros [[Hnn Hlen] Hl]. rewrite GFNumber_str_wf by (split; assumption).
  unfold GFNumber.__len__, polynomial_text, GFNumber.__int__, BitNumber.__int__.
  assert (0 < __number (_number self) ->
          exists tail : string,
            String.concat " + " (map term (set_bits_descending (__number (_number self))))
            = (term (_len self - 1) ++ tail)%string) as Hhead.
  { intros Hpos. destruct (set_bits_descending_head _ Hpos) as [rest ->].
    rewrite Hl, Hlen, bit_count_log2 by assumption.
    replace (Z.log2 (__number (_number self)) + 1 - 1)
      with (Z.log2 (__number (_number self))) by lia.
    apply concat_terms_head. }
  split.
  - split.
    + intros H. destruct (Z.eq_dec (__number (_number self)) 0) as [|Hnz];
        [assumption|].
      destruct Hhead as [tail Ht]; [lia|].
      injection H as H. rewrite Ht in H.
      destruct (term_not_empty (_len self - 1)) as (c & rest & Hc).
      rewrite Hc in H. discriminate H.
    + intros ->. reflexivity.
  - intros Hpos. destruct (Hhead Hpos) as [tail ->]. now exists tail.
Qed.

Lemma GFNumber_str_leading_witness :
  (GFNumber.__str__ (gf_of 175) = Ok ""%string <-> GFNumber.__int__ (gf_of 175) = 0)
  /\ (0 < GFNumber.__int__ (gf_of 175) ->
      exists tail : string,
        GFNumber.__str__ (gf_of 175)
        = Ok (term (GFNumber.__len__ (gf_of 175) - 1) ++ tail)%string).
Proof. apply (GFNumber_str_leading_term (gf_of 175)), gf_of_wf; lia. Defined.

Lemma range_In (n m : Z) : 0 <= n < m -> In n (range m).
Proof.
  intros H. unfold range. apply in_map_iff. exists (Z.to_nat n).
  split; [lia|]. apply in_seq. lia.
Qed.

Lemma two_digits_below_256 : forallb two_digits_of (range 256) = true.
Proof. vm_compute. reflexivity. Qed.

Lemma length_append (a b : string) :
  String.length (a ++ b) = (String.length a + String.length b)%nat.
Proof. induction a as [|c a IH]; cbn; [reflexivity | now rewrite IH]. Qed.

(** X21: the hexadecimal text of a [GF8Number] of at most 8 bits is the
    prefix followed by exactly two digits, and the digits read back as the
    value. *)
Theorem GF8Number_hex_two_digits (self : GFNumber) (prefix : string) :
  wf_gf self -> GFNumber.__len__ self <= 8 ->
  exists digits : string,
    GF8Number.__hex__ self prefix = (prefix ++ digits)%string
    /\ String.length digits = 2%nat
    /\ String.length (GF8Number.__hex__ self prefix)
       = (String.length prefix + 2)%nat
    /\ HexString.to_Z ("0x" ++ digits) = GFNumber.__int__ self.
Proof.
  intros [[Hnn Hlen] Hl] H8.
  unfold GFNumber.__len__, GFNumber.__int__, BitNumber.__int__ in *.
  assert (__number (_number self) < 2 ^ 8) as Hlt
    by (apply bit_count_le; [assumption | lia | congruence]).
  pose proof two_digits_below_256 as Hall. rewrite forallb_forall in Hall.
  specialize (Hall (__number (_number self)) (range_In _ _ (conj Hnn Hlt))).
  unfold two_digits_of in Hall. apply andb_prop in Hall as [H2 Hback].
  apply Nat.eqb_eq in H2. apply Z.eqb_eq in Hback.
  exists (hex_digits (__number (_number self))).
  split; [reflexivity|]. split; [exact H2|]. split; [|exact Hback].
  change (GF8Number.__hex__ self prefix)
    with (prefix ++ hex_digits (__number (_number self)))%string.
  now rewrite length_append, H2.
Qed.

Lemma GF8Number_hex_witness :
  exists digits : string,
    GF8Number.__hex__ (gf8_of 10) "0x" = ("0x" ++ digits)%string
    /\ String.length digits = 2%nat
    /\ String.length (GF8Number.__hex__ (gf8_of 10) "0x")
       = (String.length "0x" + 2)%nat
    /\ HexString.to_Z ("0x" ++ digits) = GFNumber.__int__ (gf8_of 10).
Proof.
  apply (GF8Number_hex_two_digits (gf8_of 10) "0x").
  - split; [split; [simpl; lia | reflexivity] | reflexivity].
  - vm_compute; discriminate.
Defined.

(** ** Laboratory work 3 *)

(** X22: [PaperBook(name, author, pages)] returns a book exactly when
    [pages] is an integer above 0, and the book then holds the three
    arguments as given; an integer that is 0 or negative is a
    [ValueError], an argument that is no integer a [TypeError]. *)
Theorem PaperBook_init_outcome (name author : string) (pages_ : value) :
  match pages_ with
  | VInt n =>
      if 0 <? n
      then exists book : PaperBook,
          PaperBook.__init__ name author pages_ = Ok book
          /\ Book.name (PaperBook_base book) = name
          /\ Book.author (PaperBook_base book) = author
          /\ pages book = n /\ 0 < pages book
      else PaperBook.__init__ name author pages_
           = Raise (ValueError "Assertion failed: pages > 0")
  | _ => PaperBook.__init__ name author pages_ = Raise (TypeError "{unknown}")
  end.
Proof.
  destruct pages_ as [n|b|g|]; try reflexivity.
  unfold PaperBook.__init__, assert_type, assert_value.
  cbn [isinstance existsb isinstance1 orb bind].
  destruct (0 <? n) eqn:E; [|reflexivity].
  apply Z.ltb_lt in E. eexists. repeat split. exact E.
Qed.

(** ** When the reduction scan comes to its end *)

Lemma pow2_pred_step (k : Z) :
  0 <= k -> 2 ^ (k + 1) - 1 = Z.lxor (2 ^ k) (2 ^ k - 1).
Proof.
  intros Hk. rewrite <- Z.add_nocarry_lxor.
  - rewrite Z.pow_add_r, Z.pow_1_r by lia. lia.
  - replace (2 ^ k - 1) with (Z.ones k) by (rewrite Z.ones_equiv; lia).
    rewrite Z.land_ones by assumption. apply Z.mod_same.
    pose proof (Z.pow_pos_nonneg 2 k). lia.
Qed.

Lemma clmul_full_quotient_step (k : Z) :
  0 <= k ->
  clmul 283 (2 ^ (k + 1) - 1)
  = Z.lxor (Z.shiftl 283 k) (clmul 283 (2 ^ k - 1)).
Proof.
  intros Hk. pose proof (Z.pow_pos_nonneg 2 k ltac:(lia) Hk).
  rewrite pow2_pred_step, clmul_lxor_r by lia.
  rewrite <- (Z2Nat.id k) at 1 by assumption.
  now rewrite clmul_pow2_r, Z2Nat.id by assumption.
Qed.

Lemma clmul_full_quotient_bounds (k : Z) :
  0 <= k ->
  2 ^ (k + 8) <= clmul 283 (2 ^ (k + 1) - 1) < 2 ^ (k + 9).
Proof.
  intros Hk.
  assert (2 ^ k < 2 ^ (k + 1)) by (apply Z.pow_lt_mono_r; lia).
  pose proof (Z.pow_pos_nonneg 2 k ltac:(lia) Hk).
  assert (bit_count (2 ^ (k + 1) - 1) = k + 1) as Hq.
  { apply bit_count_unique; [lia|].
    replace (k + 1 - 1) with k by lia. lia. }
  destruct (bit_count_clmul 283 (2 ^ (k + 1) - 1)) as [Hpos Hbc]; [lia|lia|].
  change (bit_count 283) with 9 in Hbc. rewrite Hq in Hbc.
  pose proof (bit_count_lower _ Hpos) as Hlow.
  pose proof (bit_count_upper (clmul 283 (2 ^ (k + 1) - 1)) ltac:(lia)) as Hup.
  rewrite Hbc in Hlow, Hup.
  replace (9 + (k + 1) - 1 - 1) with (k + 8) in Hlow by lia.
  replace (9 + (k + 1) - 1) with (k + 9) in Hup by lia. lia.
Qed.

(** One turn of the scan on a number below [2 ^ (i + 1)]: it subtracts the
    shifted modulus when bit [i] is there, and raises when it is not. *)
Lemma shrink_body_exact (self : GFNumber) (i : Z) :
  GF8Number.MAX_BITS <= i ->
  wf_bit (_number self) -> __number (_number self) < 2 ^ (i + 1) ->
  GF8Number.shrink_body self i
  = if 2 ^ i <=? __number (_number self)
    then let v := Z.lxor (__number (_number self)) (Z.shiftl 283 (i - 8)) in
         Ok (mkGFNumber (__class__ self) (mkBitNumber v (bit_count v)) (_len self))
    else Raise IndexOutOfRange.
Proof.
  unfold GF8Number.MAX_BITS. intros Hi [Hnn Hlen] Hlt.
  unfold GF8Number.shrink_body, GFNumber.__getitem__.
  pose proof (Z.pow_pos_nonneg 2 i ltac:(lia) ltac:(lia)) as Hp.
  destruct (2 ^ i <=? __number (_number self)) eqn:E.
  - apply Z.leb_le in E.
    assert (bit_count (__number (_number self)) = i + 1) as Hbc.
    { apply bit_count_unique; [lia|]. now replace (i + 1 - 1) with i by lia. }
    assert (Z.testbit (__number (_number self)) i = true) as Hbit.
    { rewrite bit_count_log2 in Hbc by lia.
      replace i with (Z.log2 (__number (_number self))) by lia.
      apply Z.bit_log2. lia. }
    rewrite getitem_in_bounds by lia. cbn [bind].
    rewrite Hbit. cbn [Z.b2z truthy Z.eqb negb].
    unfold GF8Number.MAX_BITS.
    rewrite BitNumber_lshift_nonneg by (cbn; lia). cbn [bind].
    pose proof (shifted_modulo_bound i Hi) as Hm.
    rewrite BitNumber_xor_nonneg
      by (cbn [__number GF8Number.SHRINK_MODULO]; lia).
    reflexivity.
  - apply Z.leb_gt in E. rewrite getitem_eq.
    assert (bit_count (__number (_number self)) <= i)
      by (apply bit_count_le; lia).
    destruct ((0 <=? i) && (i <? BitNumber.__len__ (_number self))) eqn:B;
      [|reflexivity].
    apply in_bounds_iff in B. unfold BitNumber.__len__ in B. lia.
Qed.

Lemma shrink_loop_exact (k : nat) :
  forall (start : Z) (self : GFNumber),
    Z.of_nat k = start - 7 ->
    wf_bit (_number self) -> __number (_number self) < 2 ^ (start + 1) ->
    for_each GF8Number.shrink_body
      (items (range_down start (GF8Number.MAX_BITS - 1))) self
    = let v := Z.lxor (__number (_number self))
                 (clmul 283 (2 ^ (start - 7) - 1)) in
      if v <? 256
      then Ok (mkGFNumber (__class__ self) (mkBitNumber v (bit_count v))
                 (_len self))
      else Raise IndexOutOfRange.
Proof.
  unfold GF8Number.MAX_BITS.
  induction k as [|k IH]; intros start self Hk Hwf Hlt; cbv zeta.
  - replace start with 7 in * by lia.
    rewrite range_down_nil by lia. cbn [items map for_each].
    change (clmul 283 (2 ^ (7 - 7) - 1)) with 0. rewrite Z.lxor_0_r.
    change (2 ^ (7 + 1)) with 256 in Hlt.
    destruct (__number (_number self) <? 256) eqn:E;
      [|apply Z.ltb_ge in E; lia].
    destruct self as [c [n l] l']. destruct Hwf as [_ Hl]. cbn in *.
    now rewrite Hl.
  - rewrite range_down_cons by lia. cbn [items map for_each bind].
    fold (items (range_down (start - 1) 7)).
    rewrite shrink_body_exact
      by (unfold GF8Number.MAX_BITS; try assumption; lia).
    pose proof (Z.pow_pos_nonneg 2 start ltac:(lia) ltac:(lia)) as Hp.
    pose proof (clmul_full_quotient_bounds (start - 8) ltac:(lia)) as HC.
    replace (start - 8 + 1) with (start - 7) in HC by lia.
    replace (start - 8 + 8) with start in HC by lia.
    replace (start - 8 + 9) with (start + 1) in HC by lia.
    destruct (2 ^ start <=? __number (_number self)) eqn:E.
    + apply Z.leb_le in E. cbv zeta. cbn [bind].
      set (n1 := Z.lxor (__number (_number self)) (Z.shiftl 283 (start - 8))).
      assert (0 <= n1 < 2 ^ start) as Hn1.
      { pose proof (shifted_modulo_bound start ltac:(lia)) as Hm.
        pose proof (lxor_below_pow2 _ _ (start + 1)
                      (conj (proj1 Hwf) Hlt) Hm) as Hx.
        fold n1 in Hx. split; [lia|].
        apply top_bit_clear; [lia | exact Hx |].
        unfold n1. rewrite Z.lxor_spec, shifted_modulo_top_bit by lia.
        assert (Z.testbit (__number (_number self)) start = true) as ->;
          [|reflexivity].
        replace start with (Z.log2 (__number (_number self)));
          [apply Z.bit_log2; lia|].
        apply Z.log2_unique; [lia|].
        replace (Z.succ start) with (start + 1) by lia. lia. }
      rewrite (IH (start - 1)); cbn [_number __number __class__ _len];
        [|lia | split; [apply Hn1 | reflexivity]
         |replace (start - 1 + 1) with start by lia; apply Hn1].
      cbv zeta. replace (start - 1 - 7) with (start - 8) by lia.
      replace (Z.lxor n1 (clmul 283 (2 ^ (start - 8) - 1)))
        with (Z.lxor (__number (_number self)) (clmul 283 (2 ^ (start - 7) - 1)));
        [reflexivity|].
      unfold n1. replace (start - 7) with (start - 8 + 1) by lia.
      rewrite clmul_full_quotient_step by lia. now rewrite Z.lxor_assoc.
    + apply Z.leb_gt in E. cbn [bind].
      assert (2 ^ start
              <= Z.lxor (__number (_number self))
                   (clmul 283 (2 ^ (start - 7) - 1))) as Hbig
        by (apply lxor_keeps_top_bit; [split; [apply Hwf | exact E] | exact HC]).
      assert (2 ^ 8 <= 2 ^ start) by (apply Z.pow_le_mono_r; lia).
      destruct (_ <? 256) eqn:B; [apply Z.ltb_lt in B; lia | reflexivity].
Qed.

Lemma scan_value_short (n : Z) : 0 <= n -> bit_count n <= 8 -> scan_value n = n.
Proof.
  intros Hn Hlen. unfold scan_value, full_quotient.
  pose proof (bit_count_positive n Hn).
  assert (clmul 283 (2 ^ (bit_count n - 8) - 1) = 0) as ->;
    [|apply Z.lxor_0_r].
  destruct (Z.eq_dec (bit_count n) 8) as [->|]; [reflexivity|].
  rewrite Z.pow_neg_r by lia. reflexivity.
Qed.

Lemma shrink_exact (self : GFNumber) :
  wf_gf self ->
  GF8Number.__shrink self
  = if GFNumber.__len__ self <=? 8 then Ok (false, self)
    else let v := scan_value (GFNumber.__int__ self) in
         if v <? 256
         then Ok (true,
                  mkGFNumber (__class__ self) (mkBitNumber v (bit_count v))
                    (bit_count v))
         else Raise IndexOutOfRange.
Proof.
  intros [[Hnn Hlen] Hl]. unfold GF8Number.__shrink, GF8Number.MAX_BITS.
  destruct (GFNumber.__len__ self <=? 8) eqn:E; [reflexivity|].
  apply Z.leb_gt in E.
  unfold GFNumber.__len__, GFNumber.__int__, BitNumber.__int__ in *.
  pose proof (shrink_loop_exact (Z.to_nat (_len self - 1 - 7)) (_len self - 1) self)
    as Hloop.
  unfold GF8Number.MAX_BITS in Hloop. rewrite Hloop; clear Hloop.
  - cbv zeta. unfold scan_value, full_quotient.
    rewrite <- Hlen, <- Hl.
    replace (_len self - 1 - 7) with (_len self - 8) by lia.
    destruct (_ <? 256); reflexivity.
  - lia.
  - split; assumption.
  - replace (_len self - 1 + 1) with (_len self) by lia.
    rewrite Hl, Hlen. now apply bit_count_upper.
Qed.

Lemma GF8Number_init_copy_exact (x : GFNumber) :
  wf_gf x ->
  GF8Number.__init__ (VGF x) false
  = if scan_value (GFNumber.__int__ x) <? 256
    then Ok (gf8_of (scan_value (GFNumber.__int__ x)))
    else Raise IndexOutOfRange.
Proof.
  intros Hx. assert (0 <= GFNumber.__int__ x) as Hnn by apply Hx.
  unfold GF8Number.__init__.
  rewrite (GFNumber_init_copy_wf cls_GF8Number x Hx),
    GFNumber_init_int by assumption.
  cbn [bind]. fold (gf8_of (GFNumber.__int__ x)).
  rewrite shrink_exact by (split; [split; [exact Hnn | reflexivity] | reflexivity]).
  change (GFNumber.__len__ (gf8_of (GFNumber.__int__ x)))
    with (bit_count (GFNumber.__int__ x)).
  change (GFNumber.__int__ (gf8_of (GFNumber.__int__ x)))
    with (GFNumber.__int__ x).
  destruct (bit_count (GFNumber.__int__ x) <=? 8) eqn:E.
  - apply Z.leb_le in E. rewrite scan_value_short by assumption.
    assert (GFNumber.__int__ x < 2 ^ 8) as Hlt
      by (apply bit_count_le; [assumption | lia | exact E]).
    destruct (GFNumber.__int__ x <? 256) eqn:B;
      [reflexivity | apply Z.ltb_ge in B; change (2 ^ 8) with 256 in Hlt; lia].
  - cbv zeta. destruct (scan_value (GFNumber.__int__ x) <? 256); reflexivity.
Qed.

(** X23: the exact outcome of [GF8Number(n)] for a non-negative integer.
    Let [v] be [n] less the modulus shifted to every position from the
    highest bit of [n] down to bit 8. Construction returns [GF8Number(v)]
    when [v] is below 256 and raises the out-of-range [ValueError]
    otherwise; for [n] of at most 8 bits [v] is [n]. Under
    [assert_shrunk=True] the longer [n] that the scan can reduce raise the
    [shrunk == False] assertion instead. *)
Theorem GF8Number_init_exact (n : Z) :
  0 <= n ->
  GF8Number.__init__ (VInt n) false
  = (if scan_value n <? 256 then Ok (gf8_of (scan_value n))
     else Raise IndexOutOfRange)
  /\ GF8Number.__init__ (VInt n) true
     = (if bit_count n <=? 8 then Ok (gf8_of n)
        else if scan_value n <? 256 then Raise InvariantViolation
             else Raise IndexOutOfRange)
  /\ (bit_count n <= 8 -> scan_value n = n).
Proof.
  intros Hn. split; [|split; [|now apply scan_value_short]].
  - pose proof (GF8Number_init_copy_exact (gf_of n) (gf_of_wf n Hn)) as H.
    rewrite gf_of_int in H. rewrite <- H.
    unfold GF8Number.__init__.
    rewrite (GFNumber_init_copy_wf cls_GF8Number (gf_of n) (gf_of_wf n Hn)).
    reflexivity.
  - unfold GF8Number.__init__.
    rewrite GFNumber_init_int by assumption. cbn [bind].
    fold (gf8_of n).
    rewrite shrink_exact by (split; [split; [exact Hn | reflexivity] | reflexivity]).
    change (GFNumber.__len__ (gf8_of n)) with (bit_count n).
    change (GFNumber.__int__ (gf8_of n)) with n.
    destruct (bit_count n <=? 8); [reflexivity|].
    cbv zeta. destruct (scan_value n <? 256); reflexivity.
Qed.

Lemma GF8Number_init_exact_witness :
  GF8Number.__init__ (VInt 4096) false
  = (if scan_value 4096 <? 256 then Ok (gf8_of (scan_value 4096))
     else Raise IndexOutOfRange)
  /\ GF8Number.__init__ (VInt 4096) true
     = (if bit_count 4096 <=? 8 then Ok (gf8_of 4096)
        else if scan_value 4096 <? 256 then Raise InvariantViolation
             else Raise IndexOutOfRange)
  /\ (bit_count 4096 <= 8 -> scan_value 4096 = 4096).
Proof. apply (GF8Number_init_exact 4096); lia. Defined.

(** X24: the exact outcome of [GF8Number(a) * b] for 8-bit operands. With
    [c] their carry-less product and [v] what a scan without a miss leaves
    of [c], the multiplication returns [GF8Number(v)] when [v] is below 256
    and raises the out-of-range [ValueError] otherwise. *)
Theorem GF8_product_exact (a b : Z) :
  0 <= a < 256 -> 0 <= b < 256 ->
  GF8_product a b
  = if scan_value (clmul a b) <? 256
    then Ok (gf8_of (scan_value (clmul a b)))
    else Raise IndexOutOfRange.
Proof.
  intros Ha Hb. rewrite GF8_product_small by assumption.
  assert (0 <= clmul a b) as Hc by (apply clmul_nonneg; lia).
  rewrite GFNumber_init_gf_of by assumption. cbn [bind].
  rewrite GF8Number_init_copy_exact by now apply gf_of_wf.
  rewrite gf_of_int.
  destruct (scan_value (clmul a b) <? 256) eqn:E; [|reflexivity].
  cbn [bind]. apply Z.ltb_lt in E.
  assert (0 <= scan_value (clmul a b)) as Hv.
  { unfold scan_value. apply Z.lxor_nonneg. split; intros _; [|assumption].
    apply clmul_nonneg; lia. }
  rewrite shrink_short; [reflexivity|].
  unfold GFNumber.__len__, GF8Number.MAX_BITS, gf8_of; cbn [_len].
  apply bit_count_le; [assumption | lia | exact E].
Qed.

Lemma GF8_product_exact_witness :
  GF8_product 32 128
  = if scan_value (clmul 32 128) <? 256
    then Ok (gf8_of (scan_value (clmul 32 128)))
    else Raise IndexOutOfRange.
Proof. apply (GF8_product_exact 32 128); lia. Defined.

(** ** [GFNumber]: the accessors *)

Lemma py_hex_prefix (n : Z) :
  0 <= n -> ("0x" ++ slice_from 2 (py_hex n))%string = py_hex n.
Proof.
  intros Hn. destruct n as [|p|p]; [reflexivity| |lia].
  unfold py_hex, HexString.of_Z, HexString.of_pos.
  now rewrite slice_from_2.
Qed.

(** X25: a field number built from a non-negative integer gives the
    integer back through [int()], through [bin()] and through [__hex__()]
    read in their base; its length is that of its bit vector, and indexing
    it returns bit [i] of the integer for [0 <= i < len(self)] and raises
    the out-of-range [ValueError] for any other index. *)
Theorem GFNumber_accessors (cls : gf_class) (n : Z) :
  0 <= n ->
  exists g : GFNumber,
    GFNumber.__init__ cls (VInt n) = Ok g
    /\ GFNumber.__int__ g = n
    /\ GFNumber.__len__ g = BitNumber.__len__ (_number g)
    /\ 1 <= GFNumber.__len__ g
    /\ (forall i : Z,
          GFNumber.__getitem__ g i
          = if (0 <=? i) && (i <? GFNumber.__len__ g)
            then Ok (Z.land (Z.shiftr n i) 1)
            else Raise IndexOutOfRange)
    /\ BinaryString.to_Z (GFNumber.bin g) = n
    /\ HexString.to_Z (GFNumber.__hex__ g "0x") = n.
Proof.
  intros Hn.
  exists (mkGFNumber cls (mkBitNumber n (bit_count n)) (bit_count n)).
  split; [now apply GFNumber_init_int|]. split; [reflexivity|].
  split; [reflexivity|]. split; [now apply bit_count_positive|].
  split.
  { intros i. unfold GFNumber.__getitem__. rewrite getitem_eq.
    now rewrite land_1_mod_2. }
  split; [apply BinaryString.Z_of_of_Z|].
  unfold GFNumber.__hex__, BitNumber.__hex__; cbn [_number __number].
  rewrite py_hex_prefix by assumption. apply HexString.to_Z_of_Z.
Qed.

Lemma GFNumber_accessors_witness :
  exists g : GFNumber,
    GFNumber.__init__ cls_GFNumber (VInt 175) = Ok g
    /\ GFNumber.__int__ g = 175
    /\ GFNumber.__len__ g = BitNumber.__len__ (_number g)
    /\ 1 <= GFNumber.__len__ g
    /\ (forall i : Z,
          GFNumber.__getitem__ g i
          = if (0 <=? i) && (i <? GFNumber.__len__ g)
            then Ok (Z.land (Z.shiftr 175 i) 1)
            else Raise IndexOutOfRange)
    /\ BinaryString.to_Z (GFNumber.bin g) = 175
    /\ HexString.to_Z (GFNumber.__hex__ g "0x") = 175.
Proof. apply (GFNumber_accessors cls_GFNumber 175); lia. Defined.
